(** * Website checker: the [POST] handler of [src/app/api/check/route.ts]

    The handler normalises the requested URL, fetches the page with axios,
    queries the parsed document with cheerio and fills two arrays ([issues],
    [recommendations]) and three scores, from which the overall status is
    derived.  The embedding below follows the handler statement by statement:
    the two arrays are the state of a small state monad, the scores are the
    local variables they are in the source, and axios and cheerio, which are
    libraries and not code of this repository, are the parameters [axios_get],
    [load] and [loadValue].  What the handler throws is caught by its outer
    [try] and answered with HTTP 500. *)

From Stdlib Require Import ZArith Ascii String List Lia Bool.
From stdpp Require Import base option list strings gmap pretty.
Import ListNotations.

Local Open Scope string_scope.
Local Open Scope Z_scope.

(** ** JavaScript values used by the handler *)

Module JS.

(** [s.startsWith(p)] *)
Fixpoint startsWith (p s : string) : bool :=
  match p, s with
  | EmptyString, _ => true
  | String a p', String b s' => if Ascii.eqb a b then startsWith p' s' else false
  | String _ _, EmptyString => false
  end.

(** [s.includes(p)]: [p] occurs somewhere in [s]. *)
Fixpoint includes (p s : string) : bool :=
  startsWith p s ||
  match s with
  | EmptyString => false
  | String _ s' => includes p s'
  end.

Definition lower_ascii (c : ascii) : ascii :=
  let n := nat_of_ascii c in
  if (Nat.leb 65 n && Nat.leb n 90)%bool then ascii_of_nat (n + 32) else c.

(** [s.toLowerCase()] on the ASCII range, which is all header names use. *)
Fixpoint toLowerCase (s : string) : string :=
  match s with
  | EmptyString => EmptyString
  | String c s' => String (lower_ascii c) (toLowerCase s')
  end.

(** Truthiness of a string: only the empty string is falsy. *)
Definition truthy_string (s : string) : bool :=
  match s with EmptyString => false | _ => true end.

(** Truthiness of a value that is either [undefined] or a string. *)
Definition truthy (v : option string) : bool :=
  match v with
  | Some s => truthy_string s
  | None => false
  end.

(** [`${n}`] for an integer and for an array length. *)
Definition showZ (n : Z) : string := pretty n.
Definition showNat (n : nat) : string := pretty n.

(** [x.length] of a string, as an integer; the strings of the model are
    sequences of one-unit characters. *)
Definition strlen (s : string) : Z := Z.of_nat (String.length s).

End JS.

(** ** Data model *)

Inductive Status := success | error | warning.

(** [interface CheckResult]; the fields marked [?] in the source are optional
    and are omitted from the JSON when not set. *)
Record CheckResult := {
  url : string;
  status : Status;
  statusCode : option Z;
  responseTime : option Z;
  issues : list string;
  recommendations : list string;
  seoScore : option Z;
  performanceScore : option Z;
  securityScore : option Z;
  timestamp : string;
}.

(** What [NextResponse.json] sends back: a report (HTTP 200) or an error
    body with its HTTP status. *)
Inductive Response :=
| Report (r : CheckResult)
| ErrorBody (message : string) (httpStatus : Z).

(** A value as [JSON.parse] builds it, or a plain string.  The handler only
    tests whether a number is zero, so integers stand for the numbers. *)
#[local] Unset Elimination Schemes.
Inductive JsonValue :=
| JString (s : string)
| JNumber (n : Z)
| JBoolean (b : bool)
| JNull
| JArray (items : list JsonValue)
| JObject (fields : list (string * JsonValue)).
#[local] Set Elimination Schemes.

(** Truthiness of a value that may be [undefined]. *)
Definition truthyValue (v : option JsonValue) : bool :=
  match v with
  | None => false
  | Some (JString s) => JS.truthy_string s
  | Some (JNumber n) => negb (n =? 0)
  | Some (JBoolean b) => b
  | Some JNull => false
  | Some (JArray _) => true
  | Some (JObject _) => true
  end.

(** [items.includes(needle)] on an array, for a string [needle]: an element
    is found when it is that very string. *)
Definition arrayIncludes (needle : string) (items : list JsonValue) : bool :=
  existsb (fun item =>
             match item with
             | JString s => String.eqb s needle
             | _ => false
             end) items.

(** What [const { url } = await request.json()] gives: a [url] that may be
    [undefined], or an exception (the body is not JSON, or is [null]) that
    carries a message. *)
Inductive RequestBody :=
| Unreadable (message : string)
| Readable (url : option JsonValue).

(** The response object of [axios.get].  [data] is the body as the default
    [transformResponse] leaves it: the parsed value when the body is valid
    JSON, the text of the body otherwise.  [rawHeaders] are the header lines
    as the server sent them, and [elapsed] is the time between [startTime]
    and the arrival of the response. *)
Module Axios.
Record Response := {
  status : Z;
  data : JsonValue;
  rawHeaders : list (string * string);
  elapsed : Z;
}.
End Axios.

(** [response.headers] for the header lines of a response: Node puts every
    name in lower case and joins the values of a repeated name with a comma
    and a space (this is its rule for the four names the handler reads). *)
Fixpoint headersObject (lines : list (string * string)) : gmap string string :=
  match lines with
  | [] => ∅
  | (name, value) :: rest =>
      let later := headersObject rest in
      let key := JS.toLowerCase name in
      match later !! key with
      | Some values => <[key := value +:+ ", " +:+ values]> later
      | None => <[key := value]> later
      end
  end.

(** [axios.get] either resolves to a response or throws an error that
    carries a message.  With [validateStatus: () => true] no HTTP status makes
    it throw. *)
Inductive AxiosOutcome :=
| Resolved (response : Axios.Response)
| Thrown (message : string).

(** The variables [statusCode], [htmlContent], [headers] and [responseTime]
    of the handler after lines 43-46, when [htmlContent] is a string.  The
    handler gets its snapshots from [snapshot] below, whose headers have
    lower-case keys; what is proved of every snapshot holds of those. *)
Record Snapshot := {
  resp_status : Z;
  resp_data : string;
  resp_headers : gmap string string;
  resp_elapsed : Z;
}.

(** The variables of the handler for a response whose body is the text
    [htmlContent]. *)
Definition snapshot (response : Axios.Response) (htmlContent : string) : Snapshot :=
  {| resp_status := Axios.status response;
     resp_data := htmlContent;
     resp_headers := headersObject (Axios.rawHeaders response);
     resp_elapsed := Axios.elapsed response |}.

(** The result of a cheerio query [$(selector)]: the members the handler
    uses. *)
Module Cheerio.
Record Selection := {
  text : string;
  attr : string -> option string;
  length : nat;
}.
End Cheerio.

(** ** The two arrays the checks push to *)

Record Lists := {
  l_issues : list string;
  l_recommendations : list string;
}.

Definition no_lists : Lists := {| l_issues := []; l_recommendations := [] |}.

Definition cat (a b : Lists) : Lists :=
  {| l_issues := l_issues a ++ l_issues b;
     l_recommendations := l_recommendations a ++ l_recommendations b |}.

(** A statement that may push to the arrays and yields a value. *)
Definition M (A : Type) : Type := Lists -> A * Lists.

#[global] Instance M_ret : MRet M := fun A a st => (a, st).

#[global] Instance M_bind : MBind M :=
  fun A B k m st => let (a, st') := m st in k a st'.

(** [issues.push(s)] and [recommendations.push(s)] *)
Definition push_issue (s : string) : M unit :=
  fun st => (tt, {| l_issues := l_issues st ++ [s];
                    l_recommendations := l_recommendations st |}).

Definition push_recommendation (s : string) : M unit :=
  fun st => (tt, {| l_issues := l_issues st;
                    l_recommendations := l_recommendations st ++ [s] |}).

(** [for (const x of xs) body], threading the local variable the body
    updates. *)
Fixpoint forOf {A S} (xs : list A) (body : A -> S -> M S) (s : S) : M S :=
  match xs with
  | [] => mret s
  | x :: xs' => s' ← body x s; forOf xs' body s'
  end.

(** ** The handler *)

Definition dq : string := String (ascii_of_nat 34) EmptyString.
Definition nl : string := String (ascii_of_nat 10) EmptyString.

(** The selectors that contain a double quote: [meta[name="description"]],
    [meta[name="viewport"]] and [link[rel="stylesheet"]]. *)
Definition metaDescriptionSelector : string :=
  "meta[name=" +:+ dq +:+ "description" +:+ dq +:+ "]".
Definition metaViewportSelector : string :=
  "meta[name=" +:+ dq +:+ "viewport" +:+ dq +:+ "]".
Definition stylesheetSelector : string :=
  "link[rel=" +:+ dq +:+ "stylesheet" +:+ dq +:+ "]".

(** [const normalizedUrl = url.startsWith('http') ? url : `https://${url}`] *)
Definition normalizeUrl (url : string) : string :=
  if JS.startsWith "http" url then url else "https://" +:+ url.

(** [// Check status code] *)
Definition checkStatusCode (statusCode : Z) : M unit :=
  if 500 <=? statusCode then
    push_issue ("Server error (" +:+ JS.showZ statusCode +:+ ")")
  else if 400 <=? statusCode then
    push_issue ("Client error (" +:+ JS.showZ statusCode +:+ ")")
  else if 300 <=? statusCode then
    push_issue ("Redirect detected (" +:+ JS.showZ statusCode +:+ ")")
  else mret tt.

(** [// Check response time] *)
Definition checkResponseTime (responseTime : Z) : M unit :=
  if 3000 <? responseTime then
    push_issue "Slow response time (>3 seconds)";;
    push_recommendation "Consider optimizing server performance or using a CDN"
  else if 1000 <? responseTime then
    push_recommendation "Response time could be improved (currently >1 second)"
  else mret tt.

Section Document.

(** [$], the document returned by [cheerio.load(htmlContent)]. *)
Variable dollar : string -> Cheerio.Selection.

(** [// Check title] *)
Definition checkTitle (seoScore : Z) : M Z :=
  let title := Cheerio.text (dollar "title") in
  if negb (JS.truthy_string title) || (JS.strlen title =? 0) then
    push_issue "Missing page title";;
    mret (seoScore - 15)
  else if 60 <? JS.strlen title then
    push_recommendation "Page title is too long (should be under 60 characters)";;
    mret (seoScore - 5)
  else mret seoScore.

(** [// Check meta description].  In the [else] branch the value is truthy,
    hence a string, and its length is read. *)
Definition checkMetaDescription (seoScore : Z) : M Z :=
  let metaDescription := Cheerio.attr (dollar metaDescriptionSelector) "content" in
  let missing : M Z :=
    push_issue "Missing meta description";;
    mret (seoScore - 15) in
  match metaDescription with
  | None => missing
  | Some d =>
      if negb (JS.truthy_string d) then missing
      else if 160 <? JS.strlen d then
        push_recommendation "Meta description is too long (should be under 160 characters)";;
        mret (seoScore - 5)
      else mret seoScore
  end.

(** [// Check headings] *)
Definition checkHeadings (seoScore : Z) : M Z :=
  let h1Count := Cheerio.length (dollar "h1") in
  if (h1Count =? 0)%nat then
    push_issue "No H1 heading found";;
    mret (seoScore - 10)
  else if (1 <? h1Count)%nat then
    push_recommendation "Multiple H1 headings detected (should have only one)";;
    mret (seoScore - 5)
  else mret seoScore.

(** [// Check images] *)
Definition checkImages (seoScore : Z) : M Z :=
  let imagesWithoutAlt := Cheerio.length (dollar "img:not([alt])") in
  if (0 <? imagesWithoutAlt)%nat then
    push_issue (JS.showNat imagesWithoutAlt +:+ " images missing alt text");;
    mret (seoScore - Z.min 10 (Z.of_nat imagesWithoutAlt * 2))
  else mret seoScore.

(** [// Check viewport meta tag] *)
Definition checkViewport (seoScore : Z) : M Z :=
  let viewport := Cheerio.attr (dollar metaViewportSelector) "content" in
  if negb (JS.truthy viewport) then
    push_issue "Missing viewport meta tag for mobile responsiveness";;
    mret (seoScore - 10)
  else mret seoScore.

(** [// SEO Analysis] *)
Definition seoAnalysis : M Z :=
  let seoScore := 100 in
  seoScore ← checkTitle seoScore;
  seoScore ← checkMetaDescription seoScore;
  seoScore ← checkHeadings seoScore;
  seoScore ← checkImages seoScore;
  seoScore ← checkViewport seoScore;
  mret seoScore.

(** [// Performance Analysis] *)
Definition checkInlineScripts (performanceScore : Z) : M Z :=
  let inlineScripts := Cheerio.length (dollar "script:not([src])") in
  if (5 <? inlineScripts)%nat then
    push_recommendation "Consider reducing inline scripts and using external files";;
    mret (performanceScore - 10)
  else mret performanceScore.

Definition checkExternalScripts (performanceScore : Z) : M Z :=
  let externalScripts := Cheerio.length (dollar "script[src]") in
  if (15 <? externalScripts)%nat then
    push_recommendation "Consider reducing number of external scripts";;
    mret (performanceScore - 10)
  else mret performanceScore.

Definition checkStylesheets (performanceScore : Z) : M Z :=
  let externalStylesheets := Cheerio.length (dollar stylesheetSelector) in
  if (10 <? externalStylesheets)%nat then
    push_recommendation "Consider combining CSS files to reduce HTTP requests";;
    mret (performanceScore - 10)
  else mret performanceScore.

(** [// Check for minification] *)
Definition checkMinification (htmlContent : string) (performanceScore : Z) : M Z :=
  if JS.includes "    " htmlContent || JS.includes (nl +:+ nl +:+ nl) htmlContent then
    push_recommendation "Consider minifying HTML for better performance";;
    mret (performanceScore - 5)
  else mret performanceScore.

Definition performanceAnalysis (htmlContent : string) : M Z :=
  let performanceScore := 100 in
  performanceScore ← checkInlineScripts performanceScore;
  performanceScore ← checkExternalScripts performanceScore;
  performanceScore ← checkStylesheets performanceScore;
  performanceScore ← checkMinification htmlContent performanceScore;
  mret performanceScore.

End Document.

(** [// Check HTTPS] *)
Definition checkHttps (normalizedUrl : string) (securityScore : Z) : M Z :=
  if negb (JS.startsWith "https://" normalizedUrl) then
    push_issue "Website is not using HTTPS";;
    let securityScore := securityScore - 30 in
    push_recommendation "Enable HTTPS to secure data transmission";;
    mret securityScore
  else mret securityScore.

(** [Object.entries(securityHeaders)], in insertion order. *)
Definition securityHeaders : list (string * string) :=
  [ ("strict-transport-security", "Strict-Transport-Security");
    ("x-frame-options", "X-Frame-Options");
    ("x-content-type-options", "X-Content-Type-Options");
    ("content-security-policy", "Content-Security-Policy") ].

(** The body of the loop over the security headers. *)
Definition checkSecurityHeader (headers : gmap string string)
    (entry : string * string) (securityScore : Z) : M Z :=
  let '(headerKey, headerName) := entry in
  if negb (JS.truthy (headers !! headerKey))
     && negb (JS.truthy (headers !! JS.toLowerCase headerKey)) then
    push_recommendation ("Consider adding " +:+ headerName +:+ " header");;
    mret (securityScore - 10)
  else mret securityScore.

(** [// Check security headers] *)
Definition checkSecurityHeaders (headers : gmap string string) (securityScore : Z) : M Z :=
  forOf securityHeaders (checkSecurityHeader headers) securityScore.

(** [// Security Analysis] *)
Definition securityAnalysis (normalizedUrl : string) (headers : gmap string string) : M Z :=
  let securityScore := 100 in
  securityScore ← checkHttps normalizedUrl securityScore;
  securityScore ← checkSecurityHeaders headers securityScore;
  mret securityScore.

(** [// Determine overall status] *)
Definition determineStatus (issues recommendations : list string) (statusCode : Z) : Status :=
  if (5 <? List.length issues)%nat || (500 <=? statusCode) then error
  else if (0 <? List.length issues)%nat || (3 <? List.length recommendations)%nat then warning
  else success.

(** [// Add positive feedback] *)
Definition addPositiveFeedback : M unit :=
  fun st =>
    if (List.length (l_issues st) =? 0)%nat
    then push_recommendation "Great job! No critical issues detected" st
    else (tt, st).

(** The scores as they stand before the report is assembled. *)
Record Scores := {
  seo : Z;
  performance : Z;
  security : Z;
}.

(** The answer of the outer [catch]: HTTP 500 with
    [error.message || 'Internal server error']. *)
Definition internalError (message : string) : Response :=
  ErrorBody (if JS.truthy_string message then message else "Internal server error") 500.

(** The statements from [// Check for minification] on, when [htmlContent]
    is an array, whose [includes] is that of arrays. *)
Definition checkMinificationArray (htmlContent : list JsonValue) (performanceScore : Z)
    : M Z :=
  if arrayIncludes "    " htmlContent || arrayIncludes (nl +:+ nl +:+ nl) htmlContent then
    push_recommendation "Consider minifying HTML for better performance";;
    mret (performanceScore - 5)
  else mret performanceScore.

Definition performanceAnalysisArray (dollar : string -> Cheerio.Selection)
    (htmlContent : list JsonValue) : M Z :=
  let performanceScore := 100 in
  performanceScore ← checkInlineScripts dollar performanceScore;
  performanceScore ← checkExternalScripts dollar performanceScore;
  performanceScore ← checkStylesheets dollar performanceScore;
  performanceScore ← checkMinificationArray htmlContent performanceScore;
  mret performanceScore.

Section Handler.

(** [cheerio.load] on a string, which parses any text into a document;
    [cheerio.load] and the queries that follow on a value that is not a
    string, which throw an error with a message or answer as a document
    does; and [axios.get]. *)
Variable load : string -> string -> Cheerio.Selection.
Variable loadValue : JsonValue -> string + (string -> Cheerio.Selection).
Variable axios_get : string -> AxiosOutcome.

(** The message the engine gives the [TypeError] it throws when the named
    member is called and is not a function. *)
Variable typeError : string -> string.

(** The checks of the handler, from [// Check status code] to
    [// Check for minification], in the order of the source. *)
Definition runChecks (normalizedUrl : string) (response : Snapshot) : M Scores :=
  let responseTime := resp_elapsed response in
  let statusCode := resp_status response in
  let htmlContent := resp_data response in
  let headers := resp_headers response in
  checkStatusCode statusCode;;
  checkResponseTime responseTime;;
  let dollar := load htmlContent in
  seoScore ← seoAnalysis dollar;
  securityScore ← securityAnalysis normalizedUrl headers;
  performanceScore ← performanceAnalysis dollar htmlContent;
  mret {| seo := seoScore; performance := performanceScore; security := securityScore |}.

(** The report built after a response was obtained. *)
Definition analyze (normalizedUrl : string) (response : Snapshot) (now : string)
    : CheckResult :=
  let '(scores, st) := runChecks normalizedUrl response no_lists in
  let status :=
    determineStatus (l_issues st) (l_recommendations st) (resp_status response) in
  let '(_, st) := addPositiveFeedback st in
  {| url := normalizedUrl;
     status := status;
     statusCode := Some (resp_status response);
     responseTime := Some (resp_elapsed response);
     issues := l_issues st;
     recommendations := l_recommendations st;
     seoScore := Some (Z.max 0 (seo scores));
     performanceScore := Some (Z.max 0 (performance scores));
     securityScore := Some (Z.max 0 (security scores));
     timestamp := now |}.

(** The report returned from the [catch] around [axios.get]. *)
Definition fetchFailed (normalizedUrl message now : string) : CheckResult :=
  {| url := normalizedUrl;
     status := error;
     statusCode := None;
     responseTime := None;
     issues := ["Failed to fetch website: " +:+ message];
     recommendations := ["Ensure the website is accessible and not blocking requests"];
     seoScore := None;
     performanceScore := None;
     securityScore := None;
     timestamp := now |}.

(** The same checks and the same report when [htmlContent] is an array and
    [dollar] is what cheerio made of it. *)
Definition runChecksArray (dollar : string -> Cheerio.Selection) (normalizedUrl : string)
    (response : Axios.Response) (htmlContent : list JsonValue) : M Scores :=
  let responseTime := Axios.elapsed response in
  let statusCode := Axios.status response in
  let headers := headersObject (Axios.rawHeaders response) in
  checkStatusCode statusCode;;
  checkResponseTime responseTime;;
  seoScore ← seoAnalysis dollar;
  securityScore ← securityAnalysis normalizedUrl headers;
  performanceScore ← performanceAnalysisArray dollar htmlContent;
  mret {| seo := seoScore; performance := performanceScore; security := securityScore |}.

Definition analyzeArray (dollar : string -> Cheerio.Selection) (normalizedUrl : string)
    (response : Axios.Response) (htmlContent : list JsonValue) (now : string)
    : CheckResult :=
  let '(scores, st) := runChecksArray dollar normalizedUrl response htmlContent no_lists in
  let status :=
    determineStatus (l_issues st) (l_recommendations st) (Axios.status response) in
  let '(_, st) := addPositiveFeedback st in
  {| url := normalizedUrl;
     status := status;
     statusCode := Some (Axios.status response);
     responseTime := Some (Axios.elapsed response);
     issues := l_issues st;
     recommendations := l_recommendations st;
     seoScore := Some (Z.max 0 (seo scores));
     performanceScore := Some (Z.max 0 (performance scores));
     securityScore := Some (Z.max 0 (security scores));
     timestamp := now |}.

(** The handler from [// Check status code] to the end of the [try], by what
    [htmlContent] is.  A string is parsed and checked.  For another value
    cheerio may throw; if it does not, [htmlContent.includes] is that of
    arrays for an array and is not a function for anything else, which
    throws a [TypeError].  Nothing is returned before
    the last statement, so an exception at any point gives the answer of
    the outer [catch]. *)
Definition handle (normalizedUrl : string) (response : Axios.Response) (now : string)
    : Response :=
  match Axios.data response with
  | JString htmlContent =>
      Report (analyze normalizedUrl (snapshot response htmlContent) now)
  | htmlContent =>
      match loadValue htmlContent with
      | inl message => internalError message
      | inr dollar =>
          match htmlContent with
          | JArray items => Report (analyzeArray dollar normalizedUrl response items now)
          | _ => internalError (typeError "htmlContent.includes")
          end
      end
  end.

(** [export async function POST(request)]; [now] is the clock read for the
    timestamp.  A truthy [url] that is not a string has no [startsWith],
    which throws a [TypeError]. *)
Definition POST (request : RequestBody) (now : string) : Response :=
  match request with
  | Unreadable message => internalError message
  | Readable url =>
      if negb (truthyValue url) then ErrorBody "URL is required" 400
      else
        match url with
        | Some (JString url) =>
            let normalizedUrl := normalizeUrl url in
            match axios_get normalizedUrl with
            | Thrown message => Report (fetchFailed normalizedUrl message now)
            | Resolved response => handle normalizedUrl response now
            end
        | _ => internalError (typeError "url.startsWith")
        end
  end.

End Handler.

(** ** Notions used in the statements *)

(** What a statement yields and what it pushes when the arrays start empty. *)
Definition value {A} (m : M A) : A := fst (m no_lists).
Definition pushed {A} (m : M A) : Lists := snd (m no_lists).

(** A statement is append-only when, from any arrays, it yields the same
    value and leaves the arrays extended by the same strings. *)
Definition appends {A} (m : M A) : Prop :=
  forall st, m st = (value m, cat st (pushed m)).

(** The strings the positive feedback adds to the recommendations. *)
Definition positiveFeedback (issues : list string) : list string :=
  if (List.length issues =? 0)%nat
  then ["Great job! No critical issues detected"] else [].

(** [f] takes at most [k] points: it yields a score between [s - k] and
    [s]. *)
Definition deducts (k : Z) (f : Z -> M Z) : Prop :=
  forall s, s - k <= value (f s) <= s.

(** Canned documents, headers and fetch outcomes on which the statements are
    run. *)
Module Fixture.

Definition selection (t : string) (content : option string) (n : nat)
    : Cheerio.Selection :=
  {| Cheerio.text := t; Cheerio.attr := fun _ => content; Cheerio.length := n |}.

(** A page with the title Home, one H1, a viewport tag, no meta description
    and no images. *)
Definition homePage (html selector : string) : Cheerio.Selection :=
  if String.eqb selector "title" then selection "Home" None 1
  else if String.eqb selector metaViewportSelector
       then selection EmptyString (Some "width=device-width, initial-scale=1") 1
  else if String.eqb selector "h1" then selection "Welcome" None 1
  else selection EmptyString None 0.


(** A description of 170 characters. *)
Definition longDescription : string :=
  "0123456789012345678901234567890123456789012345678901234567890123456789"
  +:+ "0123456789012345678901234567890123456789012345678901234567890123456789"
  +:+ "012345678901234567890123456789".

(** A page that raises no issue and three recommendations: a long
    description, two H1 and indented markup. *)
Definition tidyPage (html selector : string) : Cheerio.Selection :=
  if String.eqb selector "h1" then selection "WelcomeAgain" None 2
  else if String.eqb selector metaDescriptionSelector
       then selection EmptyString (Some longDescription) 1
  else homePage html selector.

(** The bodies of the two pages. *)
Definition homeBody : string :=
  "<title>Home</title>"
  +:+ "<meta name='viewport' content='width=device-width, initial-scale=1'>"
  +:+ "<h1>Welcome</h1>".

Definition tidyBody : string :=
  "<html>    <title>Home</title>"
  +:+ "<meta name='description' content='" +:+ longDescription +:+ "'>"
  +:+ "<meta name='viewport' content='width=device-width, initial-scale=1'>"
  +:+ "<h1>Welcome</h1><h1>Again</h1></html>".

Definition allHeaders : gmap string string :=
  list_to_map
    [ ("strict-transport-security", "max-age=63072000");
      ("x-frame-options", "DENY");
      ("x-content-type-options", "nosniff");
      ("content-security-policy", "default-src 'self'") ].

(** The header lines of a response that sends the four headers under their
    canonical names. *)
Definition canonicalLines : list (string * string) :=
  [ ("Strict-Transport-Security", "max-age=63072000");
    ("X-Frame-Options", "DENY");
    ("X-Content-Type-Options", "nosniff");
    ("Content-Security-Policy", "default-src 'self'") ].

(** The same lines with an empty [X-Frame-Options]. *)
Definition emptyFrameOptionsLines : list (string * string) :=
  [ ("Strict-Transport-Security", "max-age=63072000");
    ("X-Frame-Options", EmptyString);
    ("X-Content-Type-Options", "nosniff");
    ("Content-Security-Policy", "default-src 'self'") ].

Definition okResponse : Snapshot :=
  {| resp_status := 200;
     resp_data := homeBody;
     resp_headers := allHeaders;
     resp_elapsed := 120 |}.

Definition indentedResponse : Snapshot :=
  {| resp_status := 200;
     resp_data := tidyBody;
     resp_headers := allHeaders;
     resp_elapsed := 120 |}.

(** A page served as text, and a JSON document served in its place. *)
Definition pageReply : Axios.Response :=
  {| Axios.status := 200;
     Axios.data := JString homeBody;
     Axios.rawHeaders := canonicalLines;
     Axios.elapsed := 120 |}.


Definition reachable (u : string) : AxiosOutcome := Resolved pageReply.


(** The wording of V8. *)
Definition v8 (member : string) : string := member +:+ " is not a function".

(** A cheerio that takes any value for a document in which nothing is
    found. *)
Definition lenient (v : JsonValue) : string + (string -> Cheerio.Selection) :=
  inr (fun _ => selection EmptyString None 0).

Definition unreachable (u : string) : AxiosOutcome :=
  Thrown "getaddrinfo ENOTFOUND nowhere.invalid".

End Fixture.

(** The response [r] with another status code. *)
Definition withStatus (c : Z) (r : Snapshot) : Snapshot :=
  {| resp_status := c;
     resp_data := resp_data r;
     resp_headers := resp_headers r;
     resp_elapsed := resp_elapsed r |}.

(** The property of the specification: the string begins with a recognised
    scheme prefix. *)
Definition beginsWithScheme (url : string) : bool :=
  JS.startsWith "http://" url || JS.startsWith "https://" url.

(** The test of the loop for one entry: no truthy value under the entry's
    lower-case key. *)
Definition absent (headers : gmap string string) (entry : string * string) : bool :=
  negb (JS.truthy (headers !! entry.1)).

(** The recommendation for one entry. *)
Definition advice (entry : string * string) : string :=
  "Consider adding " +:+ entry.2 +:+ " header".

(** The property of the specification: the response carries a header of
    that name, names being compared without regard to case. *)
Definition sent (lines : list (string * string)) (name : string) : Prop :=
  exists line, In line lines /\ JS.toLowerCase line.1 = JS.toLowerCase name.

(** A text on which the test of [// Check for minification] answers as it
    does on the array. *)
Definition textLike (items : list JsonValue) : string :=
  if arrayIncludes "    " items || arrayIncludes (nl +:+ nl +:+ nl) items
  then "    " else EmptyString.

(** ** The page: [src/app/page.tsx] *)

(** The JSON string of a status, as [interface CheckResult] spells it. *)
Definition statusString (s : Status) : string :=
  match s with
  | success => "success"
  | error => "error"
  | warning => "warning"
  end.

Module Page.

(** The four [useState] cells of [Home]. *)
Record State := {
  url : string;
  loading : bool;
  result : option CheckResult;
  error : string;
}.

(** [useState('')], [useState(false)], [useState(null)], [useState('')] *)
Definition initial : State :=
  {| url := EmptyString; loading := false; result := None; error := EmptyString |}.

(** How [axios.post('/api/check', { url })] settles: it resolves with the
    body of the response, or throws an error whose
    [err.response?.data?.error] is a string or is missing. *)
Inductive PostOutcome :=
| PostResolved (data : CheckResult)
| PostRejected (serverError : option string).

(** [setUrl(e.target.value)] *)
Definition setUrl (value : string) (s : State) : State :=
  {| url := value; loading := loading s; result := result s; error := error s |}.

(** [checkWebsite] up to the [await]: the guard on the URL, then
    [setLoading(true); setError(''); setResult(null)].  The second component
    tells whether the request is sent. *)
Definition checkWebsiteStart (s : State) : State * bool :=
  if negb (JS.truthy_string (url s)) then
    ({| url := url s; loading := loading s; result := result s;
        error := "Please enter a URL" |}, false)
  else
    ({| url := url s; loading := true; result := None; error := EmptyString |}, true).

(** [checkWebsite] after the [await]: the [try], the [catch] and the
    [finally]. *)
Definition checkWebsiteSettle (outcome : PostOutcome) (s : State) : State :=
  let s :=
    match outcome with
    | PostResolved data =>
        {| url := url s; loading := loading s; result := Some data; error := error s |}
    | PostRejected serverError =>
        {| url := url s; loading := loading s; result := result s;
           error := if JS.truthy serverError
                    then default EmptyString serverError
                    else "Failed to check website" |}
    end in
  {| url := url s; loading := false; result := result s; error := error s |}.

(** [const checkWebsite = async () => ...], with [axios_post] the request to
    the endpoint. *)
Definition checkWebsite (axios_post : string -> PostOutcome) (s : State) : State :=
  let '(s, sent) := checkWebsiteStart s in
  if sent then checkWebsiteSettle (axios_post (url s)) s else s.

(** [getStatusColor] *)
Definition getStatusColor (status : string) : string :=
  if String.eqb status "success" then "text-green-600"
  else if String.eqb status "warning" then "text-yellow-600"
  else if String.eqb status "error" then "text-red-600"
  else "text-gray-600".

(** [getScoreColor] *)
Definition getScoreColor (score : Z) : string :=
  if 80 <=? score then "text-green-600"
  else if 60 <=? score then "text-yellow-600"
  else "text-red-600".

(** One cell of the grid under the title: its caption, the text in it and the
    colour class of that text. *)
Record Card := {
  caption : string;
  shown : string;
  colour : string;
}.

(** Truthiness of [result.statusCode]: a number other than 0. *)
Definition truthy_number (n : option Z) : bool :=
  match n with
  | Some c => negb (c =? 0)
  | None => false
  end.

(** [{n}] in JSX for a number that may be [undefined]. *)
Definition showOptional (n : option Z) : string :=
  match n with
  | Some c => JS.showZ c
  | None => EmptyString
  end.

(** A score cell, rendered when the score is not [undefined]. *)
Definition scoreCard (title : string) (score : option Z) : list Card :=
  match score with
  | Some v =>
      [ {| caption := title; shown := JS.showZ v +:+ "/100"; colour := getScoreColor v |} ]
  | None => []
  end.

(** The grid [{result.statusCode && (...)}]. *)
Definition scoreCards (r : CheckResult) : list Card :=
  if truthy_number (statusCode r) then
    [ {| caption := "Status Code"; shown := showOptional (statusCode r);
         colour := "text-gray-900" |};
      {| caption := "Response Time"; shown := showOptional (responseTime r) +:+ "ms";
         colour := "text-gray-900" |} ]
    ++ scoreCard "SEO Score" (seoScore r)
    ++ scoreCard "Performance" (performanceScore r)
  else [].

End Page.

(** The request of the page, whose body is [{ url }], answered by the
    handler: axios resolves with the body of a 2xx response and throws for
    any other status, the body being [err.response.data]. *)
Definition viaEndpoint (load : string -> string -> Cheerio.Selection)
    (loadValue : JsonValue -> string + (string -> Cheerio.Selection))
    (axios_get : string -> AxiosOutcome) (typeError : string -> string)
    (now : string) (url : string) : Page.PostOutcome :=
  match POST load loadValue axios_get typeError (Readable (Some (JString url))) now with
  | Report r => Page.PostResolved r
  | ErrorBody message _ => Page.PostRejected (Some message)
  end.

(** The order of the statuses, from best to worst. *)
Definition severity (s : Status) : nat :=
  match s with
  | success => 0
  | warning => 1
  | error => 2
  end.


(** The document cheerio gives for a body without any element. *)
Definition blankPage (selector : string) : Cheerio.Selection :=
  {| Cheerio.text := EmptyString; Cheerio.attr := fun _ => None; Cheerio.length := 0 |}.

(** * Properties *)

(** ** Statements only append *)

Lemma cat_no_lists_l st : cat no_lists st = st.
Proof. destruct st; reflexivity. Qed.

Lemma cat_no_lists_r st : cat st no_lists = st.
Proof. destruct st; unfold cat; simpl; rewrite !app_nil_r; reflexivity. Qed.

Lemma cat_assoc a b c : cat a (cat b c) = cat (cat a b) c.
Proof. unfold cat; simpl; rewrite !app_assoc; reflexivity. Qed.

Lemma appends_mret {A} (a : A) : appends (mret a).
Proof. intros st. unfold value, pushed; simpl. rewrite cat_no_lists_r. reflexivity. Qed.

Lemma appends_push_issue s : appends (push_issue s).
Proof.
  intros st. unfold value, pushed, push_issue, cat; simpl.
  rewrite app_nil_r. reflexivity.
Qed.

Lemma appends_push_recommendation s : appends (push_recommendation s).
Proof.
  intros st. unfold value, pushed, push_recommendation, cat; simpl.
  rewrite app_nil_r. reflexivity.
Qed.

Lemma run_bind {A B} (m : M A) (k : A -> M B) st :
  (m ≫= k) st = k (m st).1 (m st).2.
Proof. unfold mbind, M_bind. destruct (m st); reflexivity. Qed.

Lemma value_bind {A B} (m : M A) (k : A -> M B) :
  appends (k (value m)) ->
  value (m ≫= k) = value (k (value m)).
Proof.
  intros Hk. unfold value at 1. rewrite run_bind.
  fold (value m). fold (pushed m). rewrite Hk. reflexivity.
Qed.

Lemma pushed_bind {A B} (m : M A) (k : A -> M B) :
  appends (k (value m)) ->
  pushed (m ≫= k) = cat (pushed m) (pushed (k (value m))).
Proof.
  intros Hk. unfold pushed at 1. rewrite run_bind.
  fold (value m). fold (pushed m). rewrite Hk. reflexivity.
Qed.

Lemma appends_bind {A B} (m : M A) (k : A -> M B) :
  appends m -> (forall a, appends (k a)) -> appends (m ≫= k).
Proof.
  intros Hm Hk st.
  rewrite value_bind, pushed_bind by apply Hk.
  rewrite run_bind, Hm. simpl. rewrite Hk, cat_assoc. reflexivity.
Qed.

Lemma appends_if {A} (b : bool) (m1 m2 : M A) :
  appends m1 -> appends m2 -> appends (if b then m1 else m2).
Proof. destruct b; auto. Qed.

Lemma appends_forOf {A S} (xs : list A) (body : A -> S -> M S) :
  (forall x s, appends (body x s)) -> forall s, appends (forOf xs body s).
Proof.
  intros Hbody. induction xs as [|x xs IH]; intros s; simpl.
  - apply appends_mret.
  - apply appends_bind; auto.
Qed.

Create HintDb appends.
#[export] Hint Resolve appends_mret appends_push_issue appends_push_recommendation
  appends_forOf : appends.
#[export] Hint Extern 2 (appends (_ ≫= _)) => apply appends_bind; [|intro] : appends.
#[export] Hint Extern 2 (appends (if _ then _ else _)) => apply appends_if : appends.
#[export] Hint Extern 3 (appends (match ?x with _ => _ end)) => destruct x : appends.

Ltac appends_tac := cbv zeta; auto 20 with appends.

Lemma appends_checkStatusCode c : appends (checkStatusCode c).
Proof. unfold checkStatusCode. appends_tac. Qed.

Lemma appends_checkResponseTime t : appends (checkResponseTime t).
Proof. unfold checkResponseTime. appends_tac. Qed.

Lemma appends_checkTitle d s : appends (checkTitle d s).
Proof. unfold checkTitle. appends_tac. Qed.

Lemma appends_checkMetaDescription d s : appends (checkMetaDescription d s).
Proof. unfold checkMetaDescription. appends_tac. Qed.

Lemma appends_checkHeadings d s : appends (checkHeadings d s).
Proof. unfold checkHeadings. appends_tac. Qed.

Lemma appends_checkImages d s : appends (checkImages d s).
Proof. unfold checkImages. appends_tac. Qed.

Lemma appends_checkViewport d s : appends (checkViewport d s).
Proof. unfold checkViewport. appends_tac. Qed.

#[export] Hint Resolve appends_checkStatusCode appends_checkResponseTime
  appends_checkTitle appends_checkMetaDescription appends_checkHeadings
  appends_checkImages appends_checkViewport : appends.

Lemma appends_seoAnalysis d : appends (seoAnalysis d).
Proof. unfold seoAnalysis. appends_tac. Qed.

Lemma appends_checkInlineScripts d s : appends (checkInlineScripts d s).
Proof. unfold checkInlineScripts. appends_tac. Qed.

Lemma appends_checkExternalScripts d s : appends (checkExternalScripts d s).
Proof. unfold checkExternalScripts. appends_tac. Qed.

Lemma appends_checkStylesheets d s : appends (checkStylesheets d s).
Proof. unfold checkStylesheets. appends_tac. Qed.

Lemma appends_checkMinification h s : appends (checkMinification h s).
Proof. unfold checkMinification. appends_tac. Qed.

#[export] Hint Resolve appends_checkInlineScripts appends_checkExternalScripts
  appends_checkStylesheets appends_checkMinification : appends.

Lemma appends_performanceAnalysis d h : appends (performanceAnalysis d h).
Proof. unfold performanceAnalysis. appends_tac. Qed.

Lemma appends_checkHttps u s : appends (checkHttps u s).
Proof. unfold checkHttps. appends_tac. Qed.

Lemma appends_checkSecurityHeader h e s : appends (checkSecurityHeader h e s).
Proof. unfold checkSecurityHeader. destruct e. appends_tac. Qed.

Lemma appends_checkSecurityHeaders h s : appends (checkSecurityHeaders h s).
Proof.
  unfold checkSecurityHeaders. apply appends_forOf. apply appends_checkSecurityHeader.
Qed.

#[export] Hint Resolve appends_checkHttps appends_checkSecurityHeader
  appends_checkSecurityHeaders : appends.

Lemma appends_securityAnalysis u h : appends (securityAnalysis u h).
Proof. unfold securityAnalysis. appends_tac. Qed.

#[export] Hint Resolve appends_seoAnalysis appends_performanceAnalysis
  appends_securityAnalysis : appends.

Lemma appends_runChecks load u r : appends (runChecks load u r).
Proof. unfold runChecks. appends_tac. Qed.

(** ** The report in terms of what the checks yield and push *)

Lemma run_from_empty {A} (m : M A) : m no_lists = (value m, pushed m).
Proof. unfold value, pushed. destruct (m no_lists); reflexivity. Qed.

Lemma addPositiveFeedback_run st :
  addPositiveFeedback st =
  (tt, {| l_issues := l_issues st;
          l_recommendations := l_recommendations st ++ positiveFeedback (l_issues st) |}).
Proof.
  unfold addPositiveFeedback, positiveFeedback, push_recommendation.
  destruct (List.length (l_issues st) =? 0)%nat; [reflexivity|].
  rewrite app_nil_r. destruct st; reflexivity.
Qed.

Section Report.

Variable load : string -> string -> Cheerio.Selection.
Variables (normalizedUrl : string) (response : Snapshot) (now : string).

Let checks := runChecks load normalizedUrl response.

Lemma analyze_unfold :
  analyze load normalizedUrl response now =
  {| url := normalizedUrl;
     status := determineStatus (l_issues (pushed checks))
                 (l_recommendations (pushed checks)) (resp_status response);
     statusCode := Some (resp_status response);
     responseTime := Some (resp_elapsed response);
     issues := l_issues (pushed checks);
     recommendations :=
       l_recommendations (pushed checks) ++ positiveFeedback (l_issues (pushed checks));
     seoScore := Some (Z.max 0 (seo (value checks)));
     performanceScore := Some (Z.max 0 (performance (value checks)));
     securityScore := Some (Z.max 0 (security (value checks)));
     timestamp := now |}.
Proof.
  unfold analyze. fold checks. rewrite run_from_empty, addPositiveFeedback_run.
  reflexivity.
Qed.

Let dollar := load (resp_data response).

Lemma runChecks_value :
  value checks =
  {| seo := value (seoAnalysis dollar);
     performance := value (performanceAnalysis dollar (resp_data response));
     security := value (securityAnalysis normalizedUrl (resp_headers response)) |}.
Proof.
  unfold checks, runChecks. cbv zeta. fold dollar.
  repeat (rewrite value_bind by appends_tac).
  reflexivity.
Qed.

Lemma runChecks_pushed :
  pushed checks =
  cat (pushed (checkStatusCode (resp_status response)))
    (cat (pushed (checkResponseTime (resp_elapsed response)))
       (cat (pushed (seoAnalysis dollar))
          (cat (pushed (securityAnalysis normalizedUrl (resp_headers response)))
             (pushed (performanceAnalysis dollar (resp_data response)))))).
Proof.
  unfold checks, runChecks. cbv zeta. fold dollar.
  repeat (rewrite pushed_bind by appends_tac).
  unfold pushed at 6. simpl. rewrite !cat_no_lists_r.
  reflexivity.
Qed.

End Report.

(** ** Every check only takes points away *)

Ltac deducts_tac :=
  intros s; unfold value; cbn;
  repeat match goal with
         | |- context [if ?c then _ else _] => destruct c; cbn
         | |- context [match ?x with Some _ => _ | None => _ end] => destruct x; cbn
         end;
  unfold mbind, M_bind, mret, M_ret, push_issue, push_recommendation; cbn; lia.

Lemma checkTitle_deducts d : deducts 15 (checkTitle d).
Proof. unfold checkTitle. deducts_tac. Qed.

Lemma checkMetaDescription_deducts d : deducts 15 (checkMetaDescription d).
Proof. unfold checkMetaDescription. deducts_tac. Qed.

Lemma checkHeadings_deducts d : deducts 10 (checkHeadings d).
Proof. unfold checkHeadings. deducts_tac. Qed.

Lemma checkImages_deducts d : deducts 10 (checkImages d).
Proof. unfold checkImages. deducts_tac. Qed.

Lemma checkViewport_deducts d : deducts 10 (checkViewport d).
Proof. unfold checkViewport. deducts_tac. Qed.

Lemma checkInlineScripts_deducts d : deducts 10 (checkInlineScripts d).
Proof. unfold checkInlineScripts. deducts_tac. Qed.

Lemma checkExternalScripts_deducts d : deducts 10 (checkExternalScripts d).
Proof. unfold checkExternalScripts. deducts_tac. Qed.

Lemma checkStylesheets_deducts d : deducts 10 (checkStylesheets d).
Proof. unfold checkStylesheets. deducts_tac. Qed.

Lemma checkMinification_deducts h : deducts 5 (checkMinification h).
Proof. unfold checkMinification. deducts_tac. Qed.

Lemma checkHttps_deducts u : deducts 30 (checkHttps u).
Proof. unfold checkHttps. deducts_tac. Qed.

Lemma checkSecurityHeader_deducts h e : deducts 10 (checkSecurityHeader h e).
Proof. unfold checkSecurityHeader. destruct e as [key name]. deducts_tac. Qed.

(** A loop whose body takes at most [k] points takes at most [k] points per
    element. *)
Lemma forOf_deducts {A} (xs : list A) (body : A -> Z -> M Z) k :
  (forall x s, appends (body x s)) ->
  (forall x, deducts k (body x)) ->
  deducts (k * Z.of_nat (List.length xs)) (forOf xs body).
Proof.
  intros Happ Hbody. induction xs as [|x xs IH]; intros s.
  - unfold value; simpl. lia.
  - cbn [forOf]. rewrite value_bind by (apply appends_forOf, Happ).
    specialize (Hbody x s). specialize (IH (value (body x s))).
    cbn [List.length]. lia.
Qed.

Lemma checkSecurityHeaders_deducts h : deducts 40 (checkSecurityHeaders h).
Proof.
  intros s. unfold checkSecurityHeaders.
  apply (forOf_deducts securityHeaders (checkSecurityHeader h) 10).
  - apply appends_checkSecurityHeader.
  - apply checkSecurityHeader_deducts.
Qed.

(** The totals of the three blocks. *)
Lemma seoAnalysis_range d : 40 <= value (seoAnalysis d) <= 100.
Proof.
  unfold seoAnalysis. cbv zeta.
  repeat (rewrite value_bind by appends_tac).
  change (value (mret ?x)) with x.
  set (s1 := value (checkTitle d 100)).
  set (s2 := value (checkMetaDescription d s1)).
  set (s3 := value (checkHeadings d s2)).
  set (s4 := value (checkImages d s3)).
  set (s5 := value (checkViewport d s4)).
  assert (100 - 15 <= s1 <= 100) by apply checkTitle_deducts.
  assert (s1 - 15 <= s2 <= s1) by apply checkMetaDescription_deducts.
  assert (s2 - 10 <= s3 <= s2) by apply checkHeadings_deducts.
  assert (s3 - 10 <= s4 <= s3) by apply checkImages_deducts.
  assert (s4 - 10 <= s5 <= s4) by apply checkViewport_deducts.
  lia.
Qed.

Lemma securityAnalysis_range u h : 30 <= value (securityAnalysis u h) <= 100.
Proof.
  unfold securityAnalysis. cbv zeta.
  repeat (rewrite value_bind by appends_tac).
  change (value (mret ?x)) with x.
  set (s1 := value (checkHttps u 100)).
  set (s2 := value (checkSecurityHeaders h s1)).
  assert (100 - 30 <= s1 <= 100) by apply checkHttps_deducts.
  assert (s1 - 40 <= s2 <= s1) by apply checkSecurityHeaders_deducts.
  lia.
Qed.

Lemma performanceAnalysis_range d html :
  65 <= value (performanceAnalysis d html) <= 100.
Proof.
  unfold performanceAnalysis. cbv zeta.
  repeat (rewrite value_bind by appends_tac).
  change (value (mret ?x)) with x.
  set (s1 := value (checkInlineScripts d 100)).
  set (s2 := value (checkExternalScripts d s1)).
  set (s3 := value (checkStylesheets d s2)).
  set (s4 := value (checkMinification html s3)).
  assert (100 - 10 <= s1 <= 100) by apply checkInlineScripts_deducts.
  assert (s1 - 10 <= s2 <= s1) by apply checkExternalScripts_deducts.
  assert (s2 - 10 <= s3 <= s2) by apply checkStylesheets_deducts.
  assert (s3 - 5 <= s4 <= s3) by apply checkMinification_deducts.
  lia.
Qed.

(** ** The answers of the handler *)

Lemma textLike_flagged items :
  JS.includes "    " (textLike items) || JS.includes (nl +:+ nl +:+ nl) (textLike items)
  = arrayIncludes "    " items || arrayIncludes (nl +:+ nl +:+ nl) items.
Proof.
  unfold textLike.
  destruct (arrayIncludes "    " items || arrayIncludes (nl +:+ nl +:+ nl) items);
    reflexivity.
Qed.

(** The report for an array is the report for a text: the one of a document
    [dollar] whose body raises the minification flag as the array does. *)
Lemma analyzeArray_analyze dollar normalizedUrl response items now :
  analyzeArray dollar normalizedUrl response items now =
  analyze (fun _ => dollar) normalizedUrl (snapshot response (textLike items)) now.
Proof.
  unfold analyzeArray, analyze, runChecksArray, runChecks, performanceAnalysisArray,
    performanceAnalysis, checkMinificationArray, checkMinification.
  cbn [snapshot resp_status resp_data resp_headers resp_elapsed].
  rewrite textLike_flagged. reflexivity.
Qed.

Lemma internalError_500 message :
  exists m, internalError message = ErrorBody m 500 /\ m <> EmptyString.
Proof.
  unfold internalError. destruct message as [|c message]; cbn [JS.truthy_string];
    eexists; (split; [reflexivity|discriminate]).
Qed.


(** Whatever the body is, the handler answers with the analysis of some
    document and snapshot of the response, or with HTTP 500. *)
Lemma handle_answers load loadValue typeError normalizedUrl response now :
  (exists load' htmlContent,
      handle load loadValue typeError normalizedUrl response now =
      Report (analyze load' normalizedUrl (snapshot response htmlContent) now)) \/
  (exists m, handle load loadValue typeError normalizedUrl response now = ErrorBody m 500 /\
             m <> EmptyString /\
             forall htmlContent, Axios.data response <> JString htmlContent).
Proof.
  unfold handle.
  destruct (Axios.data response) as [html|n|b| |items|fields].
  - left. exists load, html. reflexivity.
  - right. destruct (loadValue (JNumber n)) as [message|dollar];
      [destruct (internalError_500 message) as (m & Hm & Hne)
      |destruct (internalError_500 (typeError "htmlContent.includes"))
         as (m & Hm & Hne)];
      exists m; rewrite Hm; repeat split; [exact Hne|discriminate|exact Hne|discriminate].
  - right. destruct (loadValue (JBoolean b)) as [message|dollar];
      [destruct (internalError_500 message) as (m & Hm & Hne)
      |destruct (internalError_500 (typeError "htmlContent.includes"))
         as (m & Hm & Hne)];
      exists m; rewrite Hm; repeat split; [exact Hne|discriminate|exact Hne|discriminate].
  - right. destruct (loadValue JNull) as [message|dollar];
      [destruct (internalError_500 message) as (m & Hm & Hne)
      |destruct (internalError_500 (typeError "htmlContent.includes"))
         as (m & Hm & Hne)];
      exists m; rewrite Hm; repeat split; [exact Hne|discriminate|exact Hne|discriminate].
  - destruct (loadValue (JArray items)) as [message|dollar].
    + right. destruct (internalError_500 message) as (m & Hm & Hne).
      exists m. rewrite Hm. repeat split; [exact Hne|discriminate].
    + left. exists (fun _ => dollar), (textLike items).
      rewrite analyzeArray_analyze. reflexivity.
  - right. destruct (loadValue (JObject fields)) as [message|dollar];
      [destruct (internalError_500 message) as (m & Hm & Hne)
      |destruct (internalError_500 (typeError "htmlContent.includes"))
         as (m & Hm & Hne)];
      exists m; rewrite Hm; repeat split; [exact Hne|discriminate|exact Hne|discriminate].
Qed.

Lemma POST_resolved load loadValue axios_get typeError raw now response :
  JS.truthy (Some raw) = true ->
  axios_get (normalizeUrl raw) = Resolved response ->
  POST load loadValue axios_get typeError (Readable (Some (JString raw))) now =
  handle load loadValue typeError (normalizeUrl raw) response now.
Proof.
  intros Hurl Hget. unfold POST. cbn [truthyValue]. cbn [JS.truthy] in Hurl.
  rewrite Hurl. cbn [negb]. rewrite Hget. reflexivity.
Qed.

Lemma POST_thrown load loadValue axios_get typeError raw now message :
  JS.truthy (Some raw) = true ->
  axios_get (normalizeUrl raw) = Thrown message ->
  POST load loadValue axios_get typeError (Readable (Some (JString raw))) now =
  Report (fetchFailed (normalizeUrl raw) message now).
Proof.
  intros Hurl Hget. unfold POST. cbn [truthyValue]. cbn [JS.truthy] in Hurl.
  rewrite Hurl. cbn [negb]. rewrite Hget. reflexivity.
Qed.

(** Every report of the handler is the report of a failed fetch or the
    analysis of some document and snapshot, so what holds of every
    [fetchFailed] and of every [analyze] holds of every report. *)
Lemma POST_reports load loadValue axios_get typeError request now r :
  POST load loadValue axios_get typeError request now = Report r ->
  (exists normalizedUrl message, r = fetchFailed normalizedUrl message now) \/
  (exists load' normalizedUrl snap, r = analyze load' normalizedUrl snap now).
Proof.
  unfold POST, internalError. destruct request as [unreadable|url]; [discriminate|].
  destruct (truthyValue url); cbn [negb]; [|discriminate].
  destruct url as [[raw|n|b| |items|fields]|]; try discriminate.
  destruct (axios_get (normalizeUrl raw)) as [response|message].
  - destruct (handle_answers load loadValue typeError (normalizeUrl raw) response now)
      as [(load' & html & Hrep)|(m & Herr & _)]; rewrite ?Hrep, ?Herr.
    + intros [= <-]. right. eauto.
    + discriminate.
  - intros [= <-]. left. eauto.
Qed.

(** ** The status-code classifier *)

(** C8. The status-code check leaves the recommendations alone and appends at
    most one issue, chosen by the status code alone: Server error from 500,
    Client error in 400-499, Redirect detected in 300-399, nothing below 300;
    the ranges exclude one another, and the three scores of the report are
    the same whatever the status code is. *)
Theorem checkStatusCode_classifier (statusCode : Z) (st : Lists) :
  let st' := (checkStatusCode statusCode st).2 in
  l_recommendations st' = l_recommendations st /\
  (500 <= statusCode ->
   l_issues st' = (l_issues st ++ ["Server error (" +:+ JS.showZ statusCode +:+ ")"])%list) /\
  (400 <= statusCode <= 499 ->
   l_issues st' = (l_issues st ++ ["Client error (" +:+ JS.showZ statusCode +:+ ")"])%list) /\
  (300 <= statusCode <= 399 ->
   l_issues st' = (l_issues st ++ ["Redirect detected (" +:+ JS.showZ statusCode +:+ ")"])%list) /\
  (statusCode < 300 -> st' = st) /\
  (exists added, l_issues st' = (l_issues st ++ added)%list /\ (List.length added <= 1)%nat) /\
  (forall load u r now,
      let a := analyze load u (withStatus statusCode r) now in
      let b := analyze load u r now in
      seoScore a = seoScore b /\
      performanceScore a = performanceScore b /\
      securityScore a = securityScore b).
Proof.
  cbv zeta. unfold checkStatusCode.
  destruct (Z.leb_spec 500 statusCode) as [H5|H5];
    [|destruct (Z.leb_spec 400 statusCode) as [H4|H4];
      [|destruct (Z.leb_spec 300 statusCode) as [H3|H3]]]; cbn.
  all: repeat split; try lia; try reflexivity; try (intros; exfalso; lia).
  all: try (eexists; split; [reflexivity|simpl; lia]).
  all: try (exists []; split; [symmetry; apply app_nil_r|simpl; lia]).
  all: try (destruct st; reflexivity).
  all: intros; rewrite !analyze_unfold, !runChecks_value; reflexivity.
Qed.

Lemma checkStatusCode_classifier_witness :
  (checkStatusCode 404 no_lists).2 =
  {| l_issues := ["Client error (404)"]; l_recommendations := [] |}.
Proof.
  destruct (checkStatusCode_classifier 404 no_lists) as (Hr & _ & H4 & _).
  cbv zeta in Hr, H4. specialize (H4 ltac:(lia)).
  destruct (checkStatusCode 404 no_lists).2 as [i r]; simpl in *.
  rewrite Hr, H4. reflexivity.
Defined.

(** ** Images without alt text *)



(** ** URL normalisation *)

Lemma startsWith_app_l (p q s : string) :
  JS.startsWith (p +:+ q) s = true -> JS.startsWith p s = true.
Proof.
  revert s. induction p as [|a p IH]; intros s; [reflexivity|].
  destruct s as [|b s]; simpl; [intros H; exact H|].
  destruct (Ascii.eqb a b); [apply IH|intros H; exact H].
Qed.

(** C7, as amended. A URL that does not begin with the four characters http
    gets https:// prepended, so example.com becomes https://example.com; a URL
    that begins with http:// or https:// is passed through unchanged, whatever
    follows the scheme; the normalised URL is the one that is fetched and the
    one in the [url] field of the report. *)
Theorem normalizeUrl_spec (raw : string) :
  (JS.startsWith "http" raw = false -> normalizeUrl raw = "https://" +:+ raw) /\
  (beginsWithScheme raw = true -> normalizeUrl raw = raw) /\
  normalizeUrl "example.com" = "https://example.com" /\
  (forall load loadValue axios_get typeError now,
      JS.truthy (Some raw) = true ->
      POST load loadValue axios_get typeError (Readable (Some (JString raw))) now =
        match axios_get (normalizeUrl raw) with
        | Thrown message => Report (fetchFailed (normalizeUrl raw) message now)
        | Resolved response => handle load loadValue typeError (normalizeUrl raw) response now
        end /\
      forall r,
        POST load loadValue axios_get typeError (Readable (Some (JString raw))) now = Report r ->
        url r = normalizeUrl raw).
Proof.
  split; [|split; [|split]].
  - unfold normalizeUrl. intros ->. reflexivity.
  - unfold normalizeUrl, beginsWithScheme. intros H.
    assert (Hp : JS.startsWith "http" raw = true).
    { apply orb_true_iff in H as [H|H].
      - apply (startsWith_app_l "http" "://"), H.
      - apply (startsWith_app_l "http" "s://"), H. }
    rewrite Hp. reflexivity.
  - reflexivity.
  - intros load loadValue axios_get typeError now Hurl.
    destruct (axios_get (normalizeUrl raw)) as [response|message] eqn:Hget.
    + rewrite (POST_resolved _ _ _ _ _ _ _ Hurl Hget). split; [reflexivity|].
      intros r Hr.
      destruct (handle_answers load loadValue typeError (normalizeUrl raw) response now)
        as [(load' & html & Hrep)|(m & Herr & _)].
      * rewrite Hrep in Hr. injection Hr as <-. rewrite analyze_unfold. reflexivity.
      * rewrite Herr in Hr. discriminate Hr.
    + rewrite (POST_thrown _ _ _ _ _ _ _ Hurl Hget). split; [reflexivity|].
      intros r [= <-]. reflexivity.
Qed.

Lemma normalizeUrl_spec_witness : normalizeUrl "example.com" = "https://example.com".
Proof. apply (proj1 (normalizeUrl_spec "example.com")). reflexivity. Defined.

(** A host name whose first four letters are http begins with no scheme, and
    nothing is prepended to it. *)
Lemma normalizeUrl_counterexample :
  beginsWithScheme "httpbin.org" = false /\
  normalizeUrl "httpbin.org" = "httpbin.org" /\
  normalizeUrl "httpbin.org" <> "https://" +:+ "httpbin.org".
Proof. repeat split. discriminate. Qed.

(** A URL of another scheme does not begin with http and is prefixed. *)
Example normalizeUrl_ftp : normalizeUrl "ftp://example.com" = "https://ftp://example.com".
Proof. reflexivity. Qed.

(** ** Failed and successful fetches *)




(** ** Status derivation *)

Lemma determineStatus_error i r c :
  determineStatus i r c = error <-> (5 < List.length i)%nat \/ 500 <= c.
Proof.
  unfold determineStatus.
  destruct (Nat.ltb_spec 5 (List.length i)), (Z.leb_spec 500 c); cbn [orb];
    try (split; [intros _; auto; lia|reflexivity]).
  destruct ((0 <? List.length i)%nat || (3 <? List.length r)%nat);
    (split; [discriminate|intros [?|?]; lia]).
Qed.

Lemma determineStatus_warning i r c :
  determineStatus i r c = warning <->
  ~ ((5 < List.length i)%nat \/ 500 <= c) /\
  ((0 < List.length i)%nat \/ (3 < List.length r)%nat).
Proof.
  unfold determineStatus.
  destruct (Nat.ltb_spec 5 (List.length i)), (Z.leb_spec 500 c); cbn [orb];
    try (split; [discriminate|intros [Hn _]; exfalso; apply Hn; auto; lia]).
  destruct (Nat.ltb_spec 0 (List.length i)), (Nat.ltb_spec 3 (List.length r)); cbn [orb];
    try (split; [intros _; split; [lia|auto]|reflexivity]).
  split; [discriminate|intros [_ [?|?]]; lia].
Qed.

Lemma determineStatus_success i r c :
  determineStatus i r c = success <->
  ~ ((5 < List.length i)%nat \/ 500 <= c) /\
  ~ ((0 < List.length i)%nat \/ (3 < List.length r)%nat).
Proof.
  unfold determineStatus.
  destruct (Nat.ltb_spec 5 (List.length i)), (Z.leb_spec 500 c); cbn [orb];
    try (split; [discriminate|intros [Hn _]; exfalso; apply Hn; auto; lia]).
  destruct (Nat.ltb_spec 0 (List.length i)), (Nat.ltb_spec 3 (List.length r)); cbn [orb];
    try (split; [discriminate|intros [_ Hn]; exfalso; apply Hn; auto]).
  split; [intros _; split; lia|reflexivity].
Qed.

(** C1, as amended. In every report built after a response was obtained, with
    the recommendations as they stand when the status is derived: the status
    is error exactly when there are more than 5 issues or the status code is
    500 or more; it is warning exactly when it is not error and there is an
    issue or more than 3 recommendations; it is success otherwise; the
    "Great job" recommendation is appended after that, exactly when there is
    no issue, and plays no part in the status.  The report of a failed fetch
    has the status error with its single issue and no status code. *)
Theorem status_derivation (load : string -> string -> Cheerio.Selection)
    (normalizedUrl : string) (response : Snapshot) (now : string) :
  let r := analyze load normalizedUrl response now in
  (exists derivedFrom,
      recommendations r = (derivedFrom ++ positiveFeedback (issues r))%list /\
      statusCode r = Some (resp_status response) /\
      (status r = error <->
       (5 < List.length (issues r))%nat \/ 500 <= resp_status response) /\
      (status r = warning <->
       ~ ((5 < List.length (issues r))%nat \/ 500 <= resp_status response) /\
       ((0 < List.length (issues r))%nat \/ (3 < List.length derivedFrom)%nat)) /\
      (status r = success <->
       ~ ((5 < List.length (issues r))%nat \/ 500 <= resp_status response) /\
       ~ ((0 < List.length (issues r))%nat \/ (3 < List.length derivedFrom)%nat))) /\
  (issues r = [] ->
   last (recommendations r) = Some "Great job! No critical issues detected") /\
  (forall message,
      let f := fetchFailed normalizedUrl message now in
      status f = error /\ List.length (issues f) = 1%nat /\ statusCode f = None).
Proof.
  cbv zeta. rewrite analyze_unfold. cbn [issues recommendations statusCode status].
  split; [|split].
  - eexists. split; [reflexivity|]. split; [reflexivity|].
    split; [apply determineStatus_error|].
    split; [apply determineStatus_warning|apply determineStatus_success].
  - intros ->. unfold positiveFeedback. cbn. apply last_snoc.
  - intros message. repeat split.
Qed.

(** The report of a failed fetch is an error although it has one issue and no
    status code. *)
Lemma status_derivation_counterexample :
  exists r,
    POST Fixture.homePage Fixture.lenient Fixture.unreachable Fixture.v8
      (Readable (Some (JString "nowhere.invalid")))
      "2024-05-01T10:00:00.000Z" = Report r /\
    status r = error /\
    ~ ((5 < List.length (issues r))%nat \/
       exists c, statusCode r = Some c /\ 500 <= c).
Proof.
  eexists. split; [reflexivity|]. split; [reflexivity|].
  cbn. intros [H|(c & H & _)]; [lia|discriminate H].
Qed.

(** Three recommendations and no issue: the status is success, and the report
    carries four recommendations, the last one added after the status was
    derived. *)
Example positiveFeedback_after_status :
  let r := analyze Fixture.tidyPage "https://example.com" Fixture.indentedResponse
             "2024-05-01T10:00:00.000Z" in
  status r = success /\ issues r = [] /\ List.length (recommendations r) = 4%nat.
Proof. vm_compute. repeat split. Qed.

Lemma status_derivation_witness :
  last (recommendations
          (analyze Fixture.tidyPage "https://example.com" Fixture.indentedResponse
             "2024-05-01T10:00:00.000Z"))
  = Some "Great job! No critical issues detected".
Proof.
  apply (proj1 (proj2 (status_derivation Fixture.tidyPage "https://example.com"
                         Fixture.indentedResponse "2024-05-01T10:00:00.000Z"))).
  vm_compute. reflexivity.
Defined.

(** ** Scores *)

(** C2. After a response was obtained the report carries the three scores,
    each an integer between 0 and 100: each block starts from 100 and passes
    the score through its checks in turn, every check yields a score that is
    at most the one it was given, and the report takes the maximum of 0 and
    the result. *)
Theorem scores_in_range (load : string -> string -> Cheerio.Selection)
    (normalizedUrl : string) (response : Snapshot) (now : string) :
  let r := analyze load normalizedUrl response now in
  let dollar := load (resp_data response) in
  (exists s p c,
      seoScore r = Some s /\ performanceScore r = Some p /\ securityScore r = Some c /\
      0 <= s <= 100 /\ 0 <= p <= 100 /\ 0 <= c <= 100 /\
      s = Z.max 0 (value (seoAnalysis dollar)) /\
      p = Z.max 0 (value (performanceAnalysis dollar (resp_data response))) /\
      c = Z.max 0 (value (securityAnalysis normalizedUrl (resp_headers response)))) /\
  value (seoAnalysis dollar) =
    value (checkViewport dollar
      (value (checkImages dollar
        (value (checkHeadings dollar
          (value (checkMetaDescription dollar
            (value (checkTitle dollar 100))))))))) /\
  value (securityAnalysis normalizedUrl (resp_headers response)) =
    value (checkSecurityHeaders (resp_headers response)
      (value (checkHttps normalizedUrl 100))) /\
  value (performanceAnalysis dollar (resp_data response)) =
    value (checkMinification (resp_data response)
      (value (checkStylesheets dollar
        (value (checkExternalScripts dollar
          (value (checkInlineScripts dollar 100))))))) /\
  (forall score,
      value (checkTitle dollar score) <= score /\
      value (checkMetaDescription dollar score) <= score /\
      value (checkHeadings dollar score) <= score /\
      value (checkImages dollar score) <= score /\
      value (checkViewport dollar score) <= score /\
      value (checkHttps normalizedUrl score) <= score /\
      (forall entry,
          value (checkSecurityHeader (resp_headers response) entry score) <= score) /\
      value (checkSecurityHeaders (resp_headers response) score) <= score /\
      value (checkInlineScripts dollar score) <= score /\
      value (checkExternalScripts dollar score) <= score /\
      value (checkStylesheets dollar score) <= score /\
      value (checkMinification (resp_data response) score) <= score).
Proof.
  cbv zeta. rewrite analyze_unfold, runChecks_value.
  cbn [seoScore performanceScore securityScore seo performance security].
  set (dollar := load (resp_data response)).
  pose proof (seoAnalysis_range dollar) as Hseo.
  pose proof (securityAnalysis_range normalizedUrl (resp_headers response)) as Hsec.
  pose proof (performanceAnalysis_range dollar (resp_data response)) as Hperf.
  split; [|split; [|split; [|split]]].
  - do 3 eexists. repeat (split; [reflexivity|]).
    repeat split; lia.
  - unfold seoAnalysis. cbv zeta.
    repeat (rewrite value_bind by appends_tac). reflexivity.
  - unfold securityAnalysis. cbv zeta.
    repeat (rewrite value_bind by appends_tac). reflexivity.
  - unfold performanceAnalysis. cbv zeta.
    repeat (rewrite value_bind by appends_tac). reflexivity.
  - intros score.
    pose proof (checkTitle_deducts dollar score).
    pose proof (checkMetaDescription_deducts dollar score).
    pose proof (checkHeadings_deducts dollar score).
    pose proof (checkImages_deducts dollar score).
    pose proof (checkViewport_deducts dollar score).
    pose proof (checkHttps_deducts normalizedUrl score).
    pose proof (checkSecurityHeaders_deducts (resp_headers response) score).
    pose proof (checkInlineScripts_deducts dollar score).
    pose proof (checkExternalScripts_deducts dollar score).
    pose proof (checkStylesheets_deducts dollar score).
    pose proof (checkMinification_deducts (resp_data response) score).
    repeat (split; [lia|]). split; [|repeat (split; [lia|]); lia].
    intros entry.
    pose proof (checkSecurityHeader_deducts (resp_headers response) entry score).
    lia.
Qed.

(** C10. The deductions of a block add up to at most 60 for SEO, 70 for
    security and 35 for performance, so before the report is assembled the
    SEO score is at least 40, the security score at least 30 and the
    performance score at least 65; taking the maximum with 0 therefore
    changes none of them, and the report carries the scores as computed. *)
Theorem clamp_never_applies (load : string -> string -> Cheerio.Selection)
    (normalizedUrl : string) (response : Snapshot) (now : string) :
  let scores := value (runChecks load normalizedUrl response) in
  let r := analyze load normalizedUrl response now in
  40 <= seo scores /\ 30 <= security scores /\ 65 <= performance scores /\
  Z.max 0 (seo scores) = seo scores /\
  Z.max 0 (security scores) = security scores /\
  Z.max 0 (performance scores) = performance scores /\
  seoScore r = Some (seo scores) /\
  securityScore r = Some (security scores) /\
  performanceScore r = Some (performance scores).
Proof.
  cbv zeta. rewrite analyze_unfold, runChecks_value.
  cbn [seoScore performanceScore securityScore seo performance security].
  pose proof (seoAnalysis_range (load (resp_data response))) as Hseo.
  pose proof (securityAnalysis_range normalizedUrl (resp_headers response)) as Hsec.
  pose proof (performanceAnalysis_range (load (resp_data response)) (resp_data response))
    as Hperf.
  repeat split; try lia; f_equal; lia.
Qed.

(** ** Security headers *)

Lemma securityHeaders_lowercase entry :
  In entry securityHeaders -> JS.toLowerCase entry.1 = entry.1.
Proof.
  unfold securityHeaders. cbn [In].
  intros [<-|[<-|[<-|[<-|[]]]]]; reflexivity.
Qed.

Lemma checkSecurityHeader_run headers entry securityScore st :
  JS.toLowerCase entry.1 = entry.1 ->
  checkSecurityHeader headers entry securityScore st =
  if absent headers entry
  then (securityScore - 10,
        {| l_issues := l_issues st;
           l_recommendations := (l_recommendations st ++ [advice entry])%list |})
  else (securityScore, st).
Proof.
  destruct entry as [headerKey headerName]. cbn [fst]. intros Hlow.
  unfold checkSecurityHeader, absent. rewrite Hlow. cbn [fst].
  destruct (JS.truthy (headers !! headerKey)); reflexivity.
Qed.

Lemma forOf_checkSecurityHeader headers entries :
  (forall entry, In entry entries -> JS.toLowerCase entry.1 = entry.1) ->
  forall securityScore st,
    forOf entries (checkSecurityHeader headers) securityScore st =
    (securityScore - 10 * Z.of_nat (List.length (List.filter (absent headers) entries)),
     {| l_issues := l_issues st;
        l_recommendations :=
          (l_recommendations st
             ++ List.map advice (List.filter (absent headers) entries))%list |}).
Proof.
  induction entries as [|entry entries IH]; intros Hlow securityScore st.
  - cbn. rewrite Z.sub_0_r, app_nil_r. destruct st; reflexivity.
  - cbn [forOf List.filter]. rewrite run_bind.
    rewrite checkSecurityHeader_run by (apply Hlow; left; reflexivity).
    destruct (absent headers entry); cbn [fst snd].
    + rewrite IH by (intros e He; apply Hlow; right; exact He).
      cbn [l_issues l_recommendations List.length List.map].
      rewrite <- app_assoc. cbn [app]. f_equal. lia.
    + apply IH. intros e He. apply Hlow. right. exact He.
Qed.


(** A name that no header line has, whatever the case, is not a key of
    [response.headers]. *)
Lemma headersObject_absent lines key :
  (forall line, In line lines -> JS.toLowerCase line.1 <> key) ->
  headersObject lines !! key = None.
Proof.
  induction lines as [|[name value] rest IH]; intros Hnone; cbn [headersObject].
  - apply lookup_empty.
  - assert (Hne : JS.toLowerCase name <> key)
      by (apply (Hnone (name, value)); left; reflexivity).
    assert (Hrest : headersObject rest !! key = None)
      by (apply IH; intros line Hin; apply Hnone; right; exact Hin).
    cbv zeta. destruct (headersObject rest !! JS.toLowerCase name);
      rewrite lookup_insert_ne by exact Hne; exact Hrest.
Qed.

Lemma truthy_joined value values :
  JS.truthy_string (value +:+ ", " +:+ values) = true.
Proof. destruct value; reflexivity. Qed.

(** A header line with a non-empty value is found under the lower-case
    form of its name, however the name was written. *)
Lemma headersObject_truthy lines key :
  (exists line,
      In line lines /\ JS.toLowerCase line.1 = key /\ JS.truthy_string line.2 = true) ->
  JS.truthy (headersObject lines !! key) = true.
Proof.
  induction lines as [|[name value] rest IH]; intros (line & Hin & Hkey & Hvalue).
  - destruct Hin.
  - cbn [headersObject]. cbv zeta. destruct Hin as [<-|Hin].
    + cbn [fst snd] in Hkey, Hvalue. subst key.
      destruct (headersObject rest !! JS.toLowerCase name);
        rewrite lookup_insert_eq; cbn [JS.truthy];
        [apply truthy_joined|exact Hvalue].
    + assert (Hrest : JS.truthy (headersObject rest !! key) = true)
        by (apply IH; exists line; auto).
      destruct (decide (JS.toLowerCase name = key)) as [->|Hne].
      * destruct (headersObject rest !! key) as [values|];
          [|discriminate Hrest].
        rewrite lookup_insert_eq. cbn [JS.truthy]. apply truthy_joined.
      * destruct (headersObject rest !! JS.toLowerCase name);
          rewrite lookup_insert_ne by exact Hne; exact Hrest.
Qed.

Lemma toLowerCase_idempotent name :
  JS.toLowerCase (JS.toLowerCase name) = JS.toLowerCase name.
Proof.
  induction name as [|c name IH]; [reflexivity|].
  cbn [JS.toLowerCase]. rewrite IH. f_equal.
  destruct c as [[] [] [] [] [] [] [] []]; reflexivity.
Qed.

(** Every key of [response.headers] is in lower case. *)
Lemma headersObject_keys lines key :
  is_Some (headersObject lines !! key) -> JS.toLowerCase key = key.
Proof.
  induction lines as [|[name value] rest IH]; cbn [headersObject]; cbv zeta.
  - rewrite lookup_empty. intros [v Hv]. discriminate Hv.
  - destruct (decide (JS.toLowerCase name = key)) as [<-|Hne].
    + intros _. apply toLowerCase_idempotent.
    + destruct (headersObject rest !! JS.toLowerCase name);
        rewrite lookup_insert_ne by exact Hne; exact IH.
Qed.

(** C4, as amended. For each of the four headers, in the order
    strict-transport-security, x-frame-options, x-content-type-options,
    content-security-policy, the security check looks the header up in the
    response headers, where a header sent under any casing of its name is
    found; when the header is absent, or is handed over with an empty value,
    it appends "Consider adding <Canonical-Header-Name> header" and takes 10
    points, each header on its own, so at most 40 points on top of the 30 for
    HTTPS. *)
Theorem checkSecurityHeaders_spec (headers : gmap string string)
    (securityScore : Z) (st : Lists) :
  let missing := List.filter (absent headers) securityHeaders in
  checkSecurityHeaders headers securityScore st =
    (securityScore - 10 * Z.of_nat (List.length missing),
     {| l_issues := l_issues st;
        l_recommendations := (l_recommendations st ++ List.map advice missing)%list |}) /\
  (List.length missing <= 4)%nat /\
  (forall entry,
      In entry securityHeaders ->
      checkSecurityHeader headers entry securityScore st =
      if JS.truthy (headers !! entry.1)
      then (securityScore, st)
      else (securityScore - 10,
            {| l_issues := l_issues st;
               l_recommendations := (l_recommendations st ++ [advice entry])%list |})) /\
  (forall normalizedUrl,
      value (securityAnalysis normalizedUrl headers) =
      value (checkHttps normalizedUrl 100) - 10 * Z.of_nat (List.length missing) /\
      100 - 30 <= value (checkHttps normalizedUrl 100)) /\
  (forall lines entry,
      In entry securityHeaders ->
      (~ sent lines entry.1 -> JS.truthy (headersObject lines !! entry.1) = false) /\
      ((exists line,
           In line lines /\ JS.toLowerCase line.1 = JS.toLowerCase entry.1 /\
           JS.truthy_string line.2 = true) ->
       JS.truthy (headersObject lines !! entry.1) = true)).
Proof.
  cbv zeta. split; [|split; [|split; [|split]]].
  - unfold checkSecurityHeaders.
    apply forOf_checkSecurityHeader, securityHeaders_lowercase.
  - etransitivity; [apply List.filter_length_le|]. reflexivity.
  - intros entry Hin.
    rewrite checkSecurityHeader_run by (apply securityHeaders_lowercase, Hin).
    unfold absent. destruct (JS.truthy (headers !! entry.1)); reflexivity.
  - intros normalizedUrl. split; [|apply checkHttps_deducts].
    unfold securityAnalysis. cbv zeta.
    repeat (rewrite value_bind by appends_tac).
    change (value (mret ?x)) with x.
    unfold value at 1, checkSecurityHeaders.
    rewrite forOf_checkSecurityHeader by apply securityHeaders_lowercase.
    reflexivity.
  - intros lines entry Hin.
    pose proof (securityHeaders_lowercase entry Hin) as Hlow. split.
    + intros Hnot. rewrite headersObject_absent; [reflexivity|].
      intros line Hline Heq. apply Hnot. exists line.
      split; [exact Hline|]. rewrite Hlow. exact Heq.
    + intros (line & Hline & Heq & Hvalue). apply headersObject_truthy.
      exists line. rewrite Hlow in Heq. auto.
Qed.

(** The response carries X-Frame-Options, with an empty value, and the check
    recommends adding it and takes 10 points. *)
Lemma checkSecurityHeaders_counterexample :
  sent Fixture.emptyFrameOptionsLines "x-frame-options" /\
  checkSecurityHeaders (headersObject Fixture.emptyFrameOptionsLines) 100 no_lists =
  (90, {| l_issues := [];
          l_recommendations := ["Consider adding X-Frame-Options header"] |}).
Proof.
  split; [|vm_compute; reflexivity].
  exists ("X-Frame-Options", EmptyString). split; [|reflexivity].
  right. left. reflexivity.
Qed.

Lemma checkSecurityHeaders_spec_witness :
  JS.truthy (headersObject Fixture.canonicalLines !! "x-frame-options") = true.
Proof.
  apply (proj2 (proj2 (proj2 (proj2 (proj2
           (checkSecurityHeaders_spec ∅ 100 no_lists))))
           Fixture.canonicalLines ("x-frame-options", "X-Frame-Options")
           (or_intror (or_introl eq_refl)))).
  exists ("X-Frame-Options", "DENY"). split; [|split; reflexivity].
  right. left. reflexivity.
Defined.

(** ** Order of the strings and repeated runs *)

Lemma performanceAnalysis_no_issue d html :
  l_issues (pushed (performanceAnalysis d html)) = [].
Proof.
  unfold pushed, performanceAnalysis, checkInlineScripts, checkExternalScripts,
    checkStylesheets, checkMinification, mbind, M_bind. cbv zeta.
  repeat match goal with
         | |- context [if ?c then _ else _] => destruct c
         end; reflexivity.
Qed.

(** C9. After a response was obtained, the issues of the report are those of
    the status-code and response-time checks followed by those of the SEO
    block, then those of the security block, then those of the performance
    block, and so are the recommendations, with the positive feedback last;
    each block pushes the same strings whatever the arrays hold when it
    starts; and two runs over the same body, headers, status code and
    response time give the same issues, recommendations, scores and status,
    whatever the clock says. *)
Theorem report_order (load : string -> string -> Cheerio.Selection)
    (normalizedUrl : string) (response : Snapshot) (now again : string) :
  let r := analyze load normalizedUrl response now in
  let r' := analyze load normalizedUrl response again in
  let dollar := load (resp_data response) in
  let preamble :=
    cat (pushed (checkStatusCode (resp_status response)))
        (pushed (checkResponseTime (resp_elapsed response))) in
  let seoBlock := pushed (seoAnalysis dollar) in
  let securityBlock := pushed (securityAnalysis normalizedUrl (resp_headers response)) in
  let performanceBlock := pushed (performanceAnalysis dollar (resp_data response)) in
  issues r =
    (l_issues preamble ++ l_issues seoBlock ++ l_issues securityBlock
       ++ l_issues performanceBlock)%list /\
  recommendations r =
    (l_recommendations preamble ++ l_recommendations seoBlock
       ++ l_recommendations securityBlock ++ l_recommendations performanceBlock
       ++ positiveFeedback (issues r))%list /\
  (forall st,
      (seoAnalysis dollar st).2 = cat st seoBlock /\
      (securityAnalysis normalizedUrl (resp_headers response) st).2 = cat st securityBlock /\
      (performanceAnalysis dollar (resp_data response) st).2 = cat st performanceBlock) /\
  issues r' = issues r /\
  recommendations r' = recommendations r /\
  seoScore r' = seoScore r /\
  performanceScore r' = performanceScore r /\
  securityScore r' = securityScore r /\
  status r' = status r /\
  statusCode r' = statusCode r /\
  responseTime r' = responseTime r.
Proof.
  cbv zeta. rewrite !analyze_unfold.
  cbn [issues recommendations seoScore performanceScore securityScore status
         statusCode responseTime].
  rewrite runChecks_pushed.
  split; [|split; [|split]].
  - cbn [cat l_issues]. rewrite <- !app_assoc. reflexivity.
  - cbn [cat l_recommendations]. rewrite <- !app_assoc. reflexivity.
  - intros st.
    rewrite (appends_seoAnalysis _ st), (appends_securityAnalysis _ _ st),
      (appends_performanceAnalysis _ _ st).
    repeat split.
  - repeat split.
Qed.

(** ** A worked page *)




(** * Further properties of the handler *)

(** ** Request validation *)

(** X1. The handler has three kinds of answer.  It answers "URL is
    required" with HTTP 400 exactly when the request can be read and its
    [url] is missing or falsy (null, false, 0 or the empty string), whatever
    the network would do.  It answers HTTP 500, always with a non-empty
    message, only when the request cannot be read, when [url] is truthy but
    not a string, or when the fetched body reaches it as a value that is not
    a string.  A non-empty string [url] whose fetch throws, or delivers
    text, is always answered with a report. *)
Theorem url_required (load : string -> string -> Cheerio.Selection)
    (loadValue : JsonValue -> string + (string -> Cheerio.Selection))
    (axios_get : string -> AxiosOutcome) (typeError : string -> string)
    (request : RequestBody) (now : string) :
  let answer := POST load loadValue axios_get typeError request now in
  (answer = ErrorBody "URL is required" 400 <->
   exists url, request = Readable url /\ truthyValue url = false) /\
  (forall message code,
      answer = ErrorBody message code ->
      (code = 400 /\ message = "URL is required") \/
      (code = 500 /\ message <> EmptyString)) /\
  (forall message,
      answer = ErrorBody message 500 ->
      (exists m, request = Unreadable m) \/
      (exists url,
          request = Readable (Some url) /\ truthyValue (Some url) = true /\
          forall raw, url <> JString raw) \/
      (exists raw response,
          request = Readable (Some (JString raw)) /\
          axios_get (normalizeUrl raw) = Resolved response /\
          forall htmlContent, Axios.data response <> JString htmlContent)) /\
  (forall raw,
      request = Readable (Some (JString raw)) ->
      JS.truthy_string raw = true ->
      (forall message,
          axios_get (normalizeUrl raw) = Thrown message -> exists r, answer = Report r) /\
      (forall response htmlContent,
          axios_get (normalizeUrl raw) = Resolved response ->
          Axios.data response = JString htmlContent -> exists r, answer = Report r)).
Proof.
  cbv zeta.
  assert (Hstring : forall raw,
             JS.truthy_string raw = true ->
             POST load loadValue axios_get typeError (Readable (Some (JString raw))) now =
             match axios_get (normalizeUrl raw) with
             | Thrown message => Report (fetchFailed (normalizeUrl raw) message now)
             | Resolved response => handle load loadValue typeError (normalizeUrl raw) response now
             end).
  { intros raw Hraw. unfold POST. cbn [truthyValue]. rewrite Hraw. reflexivity. }
  assert (Hother : forall url,
             truthyValue (Some url) = true -> (forall raw, url <> JString raw) ->
             POST load loadValue axios_get typeError (Readable (Some url)) now =
             internalError (typeError "url.startsWith")).
  { intros url Htrue Hnot. unfold POST. rewrite Htrue. cbn [negb].
    destruct url; try reflexivity. exfalso. apply (Hnot s). reflexivity. }
  destruct request as [unreadable|url].
  - cbn [POST]. destruct (internalError_500 unreadable) as (m & Hm & Hne). rewrite Hm.
    split; [|split; [|split]].
    + split; [discriminate|intros (url & Hurl & _); discriminate Hurl].
    + intros message code [= <- <-]. right. split; [reflexivity|exact Hne].
    + intros message _. left. exists unreadable. reflexivity.
    + intros raw Hraw. discriminate Hraw.
  - destruct (truthyValue url) eqn:Htruthy.
    + destruct url as [url|]; [|discriminate Htruthy].
      assert (Hcases : (exists raw, url = JString raw) \/ forall raw, url <> JString raw).
      { destruct url; try (right; intros raw; discriminate). left. eexists. reflexivity. }
      destruct Hcases as [[raw ->]|Hnot].
      * cbn [truthyValue] in Htruthy. rewrite (Hstring raw Htruthy).
        destruct (axios_get (normalizeUrl raw)) as [response|thrown] eqn:Hget.
        -- destruct (handle_answers load loadValue typeError (normalizeUrl raw) response now)
             as [(load' & html & Hrep)|(m & Herr & Hne & Hdata)].
           ++ rewrite Hrep. split; [|split; [|split]].
              ** split; [discriminate|].
                 intros (u & [= <-] & Hu). cbn [truthyValue] in Hu. congruence.
              ** intros message code Hm. discriminate Hm.
              ** intros message Hm. discriminate Hm.
              ** intros raw' _ _. split; intros; eexists; reflexivity.
           ++ rewrite Herr. split; [|split; [|split]].
              ** split; [discriminate|].
                 intros (u & [= <-] & Hu). cbn [truthyValue] in Hu. congruence.
              ** intros message code [= <- <-]. right. split; [reflexivity|exact Hne].
              ** intros message _. right. right. exists raw, response. auto.
              ** intros raw' [= <-] _. split; [intros message Hm; congruence|].
                 intros response' html Hr Hhtml. rewrite Hget in Hr.
                 injection Hr as <-. exfalso. apply (Hdata html), Hhtml.
        -- split; [|split; [|split]].
           ++ split; [discriminate|].
              intros (u & [= <-] & Hu). cbn [truthyValue] in Hu. congruence.
           ++ intros message code Hm. discriminate Hm.
           ++ intros message Hm. discriminate Hm.
           ++ intros raw' _ _. split; intros; eexists; reflexivity.
      * rewrite (Hother url Htruthy Hnot).
        destruct (internalError_500 (typeError "url.startsWith")) as (m & Hm & Hne).
        rewrite Hm. split; [|split; [|split]].
        -- split; [discriminate|]. intros (u & [= <-] & Hu). congruence.
        -- intros message code [= <- <-]. right. split; [reflexivity|exact Hne].
        -- intros message _. right. left. exists url. auto.
        -- intros raw [= ->]. exfalso. apply (Hnot raw). reflexivity.
    + assert (Hanswer : POST load loadValue axios_get typeError (Readable url) now =
                        ErrorBody "URL is required" 400)
        by (unfold POST; rewrite Htruthy; reflexivity).
      rewrite Hanswer. split; [|split; [|split]].
      * split; [intros _; exists url; auto|reflexivity].
      * intros message code [= <- <-]. left. split; reflexivity.
      * intros message Hm. discriminate Hm.
      * intros raw [= ->] Hraw. cbn [truthyValue] in Htruthy. congruence.
Qed.

Lemma url_required_witness :
  exists r,
    POST Fixture.homePage Fixture.lenient Fixture.reachable Fixture.v8
      (Readable (Some (JString "example.com"))) "2024-05-01T10:00:00.000Z" = Report r.
Proof.
  apply (proj2 (proj2 (proj2 (proj2
           (url_required Fixture.homePage Fixture.lenient Fixture.reachable Fixture.v8
              (Readable (Some (JString "example.com"))) "2024-05-01T10:00:00.000Z")))
           "example.com" eq_refl eq_refl) Fixture.pageReply _ eq_refl eq_refl).
Defined.

(** ** The response-time check *)

(** X2. The response-time check has three exclusive outcomes: above 3000 ms
    it appends the issue "Slow response time (>3 seconds)" and the CDN
    recommendation; above 1000 ms and up to 3000 ms it appends only the
    recommendation that the time could be improved; up to 1000 ms (also for
    a zero or negative time) it appends nothing. *)
Theorem checkResponseTime_classifier (responseTime : Z) (st : Lists) :
  let st' := (checkResponseTime responseTime st).2 in
  (3000 < responseTime ->
   st' = {| l_issues := (l_issues st ++ ["Slow response time (>3 seconds)"])%list;
            l_recommendations :=
              (l_recommendations st
                 ++ ["Consider optimizing server performance or using a CDN"])%list |}) /\
  (1000 < responseTime <= 3000 ->
   st' = {| l_issues := l_issues st;
            l_recommendations :=
              (l_recommendations st
                 ++ ["Response time could be improved (currently >1 second)"])%list |}) /\
  (responseTime <= 1000 -> st' = st).
Proof.
  cbv zeta. unfold checkResponseTime.
  destruct (Z.ltb_spec 3000 responseTime) as [H3|H3];
    [|destruct (Z.ltb_spec 1000 responseTime) as [H1|H1]].
  - split; [|split]; [intros _; reflexivity|intros; lia|intros; lia].
  - split; [|split]; [intros; lia|intros _; reflexivity|intros; lia].
  - split; [|split]; [intros; lia|intros; lia|intros _; reflexivity].
Qed.

Lemma checkResponseTime_classifier_witness :
  (checkResponseTime 2500 no_lists).2 =
  {| l_issues := [];
     l_recommendations := ["Response time could be improved (currently >1 second)"] |}.
Proof.
  apply (proj1 (proj2 (checkResponseTime_classifier 2500 no_lists))). lia.
Defined.

(** ** Status *)

(** X3. A status code of 500 or more always gives the status error, with
    the "Server error" issue first in the list, whatever the page looks
    like. *)
Theorem server_error_first (load : string -> string -> Cheerio.Selection)
    (normalizedUrl : string) (response : Snapshot) (now : string) :
  500 <= resp_status response ->
  let r := analyze load normalizedUrl response now in
  status r = error /\
  head (issues r) = Some ("Server error (" +:+ JS.showZ (resp_status response) +:+ ")").
Proof.
  intros Hcode. cbv zeta. rewrite analyze_unfold. cbn [status issues]. split.
  - apply determineStatus_error. right. exact Hcode.
  - rewrite runChecks_pushed. unfold checkStatusCode.
    destruct (Z.leb_spec 500 (resp_status response)); [|lia].
    reflexivity.
Qed.

Lemma server_error_first_witness :
  status (analyze Fixture.homePage "https://example.com"
            (withStatus 503 Fixture.okResponse) "2024-05-01T10:00:00.000Z") = error.
Proof.
  apply (server_error_first Fixture.homePage "https://example.com"
           (withStatus 503 Fixture.okResponse) "2024-05-01T10:00:00.000Z").
  vm_compute. discriminate.
Defined.

(** X4. More findings never give a better status: with the same status
    code, a status derived from at least as many issues and at least as many
    recommendations is at least as severe, and with the same findings a
    status code of 500 or more is at least as severe as any other. *)
Theorem determineStatus_monotone (issues issues' recommendations recommendations' : list string)
    (statusCode statusCode' : Z) :
  (List.length issues <= List.length issues')%nat ->
  (List.length recommendations <= List.length recommendations')%nat ->
  (500 <= statusCode -> 500 <= statusCode') ->
  (severity (determineStatus issues recommendations statusCode)
   <= severity (determineStatus issues' recommendations' statusCode'))%nat.
Proof.
  intros Hi Hr Hc. unfold determineStatus.
  destruct (Nat.ltb_spec 5 (List.length issues)),
    (Nat.ltb_spec 5 (List.length issues')),
    (Z.leb_spec 500 statusCode), (Z.leb_spec 500 statusCode'),
    (Nat.ltb_spec 0 (List.length issues)),
    (Nat.ltb_spec 0 (List.length issues')),
    (Nat.ltb_spec 3 (List.length recommendations)),
    (Nat.ltb_spec 3 (List.length recommendations'));
    cbn [orb severity]; lia.
Qed.

Lemma determineStatus_monotone_witness :
  (severity (determineStatus [] [] 200)
   <= severity (determineStatus ["No H1 heading found"] [] 200))%nat.
Proof.
  apply determineStatus_monotone; [cbn; lia|cbn; lia|lia].
Defined.

(** ** Scores and findings *)

Ltac profile_tac :=
  unfold value, pushed, mbind, M_bind, mret, M_ret, push_issue, push_recommendation;
  cbv zeta;
  repeat match goal with
         | |- context [if ?c then _ else _] => destruct c
         | |- context [match ?x with Some _ => _ | None => _ end] => destruct x
         end;
  cbn [fst snd l_issues l_recommendations no_lists app List.length];
  repeat split; lia.

(** With [i] issues and [r] recommendations pushed by the SEO block, the
    score lies between [100 - 15 i - 5 r] and [100 - 2 i - 5 r], and three
    issues cost at least 22 points. *)
Lemma seoAnalysis_profile d :
  let v := value (seoAnalysis d) in
  let i := Z.of_nat (List.length (l_issues (pushed (seoAnalysis d)))) in
  let r := Z.of_nat (List.length (l_recommendations (pushed (seoAnalysis d)))) in
  100 - 15 * i - 5 * r <= v <= 100 - 2 * i - 5 * r /\ i <= 5 /\ r <= 3 /\ i + r <= 5 /\
  (3 <= i -> v <= 78).
Proof.
  unfold seoAnalysis, checkTitle, checkMetaDescription, checkHeadings, checkImages,
    checkViewport.
  destruct (Nat.ltb_spec 0 (Cheerio.length (d "img:not([alt])"))); profile_tac.
Qed.

Lemma performanceAnalysis_profile d html :
  let v := value (performanceAnalysis d html) in
  let r := Z.of_nat (List.length (l_recommendations (pushed (performanceAnalysis d html)))) in
  100 - 10 * r <= v <= 100 - 5 * r /\ r <= 4.
Proof.
  unfold performanceAnalysis, checkInlineScripts, checkExternalScripts,
    checkStylesheets, checkMinification.
  profile_tac.
Qed.

Lemma securityAnalysis_run u h :
  securityAnalysis u h no_lists =
  (value (checkHttps u 100)
     - 10 * Z.of_nat (List.length (List.filter (absent h) securityHeaders)),
   cat (pushed (checkHttps u 100))
     {| l_issues := [];
        l_recommendations := List.map advice (List.filter (absent h) securityHeaders) |}).
Proof.
  unfold securityAnalysis. cbv zeta.
  rewrite run_bind, run_from_empty. cbn [fst snd].
  rewrite run_bind. unfold checkSecurityHeaders.
  rewrite forOf_checkSecurityHeader by apply securityHeaders_lowercase.
  cbn [fst snd]. unfold mret, M_ret, cat. cbn [l_issues l_recommendations].
  rewrite app_nil_r. reflexivity.
Qed.

Lemma checkHttps_profile u :
  (JS.startsWith "https://" u = true /\
   value (checkHttps u 100) = 100 /\ pushed (checkHttps u 100) = no_lists) \/
  (JS.startsWith "https://" u = false /\
   value (checkHttps u 100) = 70 /\
   pushed (checkHttps u 100) =
   {| l_issues := ["Website is not using HTTPS"];
      l_recommendations := ["Enable HTTPS to secure data transmission"] |}).
Proof.
  unfold checkHttps. destruct (JS.startsWith "https://" u); [left|right];
    repeat split.
Qed.

(** The security score is 100 minus 20 per issue and 10 per recommendation
    of the security block. *)
Lemma securityAnalysis_profile u h :
  let v := value (securityAnalysis u h) in
  let i := Z.of_nat (List.length (l_issues (pushed (securityAnalysis u h)))) in
  let r := Z.of_nat (List.length (l_recommendations (pushed (securityAnalysis u h)))) in
  v = 100 - 20 * i - 10 * r /\ i <= 1 /\ r <= 4 + i /\
  (i = 0 <-> JS.startsWith "https://" u = true).
Proof.
  cbv zeta. unfold value, pushed. rewrite securityAnalysis_run. cbn [fst snd].
  pose proof (List.filter_length_le (absent h) securityHeaders) as Hlen.
  change (List.length securityHeaders) with 4%nat in Hlen.
  destruct (checkHttps_profile u) as [(Hs & Hv & Hp)|(Hs & Hv & Hp)];
    rewrite Hv, Hp, Hs; cbn [cat l_issues l_recommendations no_lists app];
    cbn [List.length]; rewrite ?length_map;
    repeat split; try lia; intros; first [reflexivity | lia | discriminate].
Qed.

Lemma checkStatusCode_profile c :
  let p := pushed (checkStatusCode c) in
  l_recommendations p = [] /\
  (List.length (l_issues p) <= 1)%nat /\
  (List.length (l_issues p) = 0%nat <-> c < 300).
Proof.
  cbv zeta. unfold pushed, checkStatusCode.
  destruct (Z.leb_spec 500 c); [|destruct (Z.leb_spec 400 c); [|destruct (Z.leb_spec 300 c)]];
    cbn; repeat split; intros; first [lia | discriminate | reflexivity].
Qed.

Lemma checkResponseTime_profile t :
  let p := pushed (checkResponseTime t) in
  (List.length (l_issues p) <= 1)%nat /\
  (List.length (l_recommendations p) <= 1)%nat /\
  (List.length (l_issues p) = 0%nat <-> t <= 3000).
Proof.
  cbv zeta. unfold pushed, checkResponseTime.
  destruct (Z.ltb_spec 3000 t); [|destruct (Z.ltb_spec 1000 t)];
    cbn; repeat split; intros; first [lia | discriminate | reflexivity].
Qed.

Lemma lists_empty_iff st :
  st = no_lists <->
  List.length (l_issues st) = 0%nat /\ List.length (l_recommendations st) = 0%nat.
Proof.
  destruct st as [[|i0 il] [|r0 rl]]; cbn; split;
    first [intros [? ?]; discriminate | discriminate | intros _; split; reflexivity | reflexivity].
Qed.

(** X5. A score of the report is 100 exactly when its block has reported
    nothing, neither an issue nor a recommendation; the security score is
    100 minus 20 for each issue and 10 for each recommendation of the
    security block. *)
Theorem score_100_iff_silent (load : string -> string -> Cheerio.Selection)
    (normalizedUrl : string) (response : Snapshot) (now : string) :
  let r := analyze load normalizedUrl response now in
  let dollar := load (resp_data response) in
  let securityBlock := pushed (securityAnalysis normalizedUrl (resp_headers response)) in
  (seoScore r = Some 100 <-> pushed (seoAnalysis dollar) = no_lists) /\
  (securityScore r = Some 100 <-> securityBlock = no_lists) /\
  (performanceScore r = Some 100 <->
   pushed (performanceAnalysis dollar (resp_data response)) = no_lists) /\
  securityScore r =
    Some (100 - 20 * Z.of_nat (List.length (l_issues securityBlock))
              - 10 * Z.of_nat (List.length (l_recommendations securityBlock))).
Proof.
  cbv zeta. rewrite analyze_unfold, runChecks_value.
  cbn [seoScore performanceScore securityScore seo performance security].
  pose proof (seoAnalysis_profile (load (resp_data response))) as Hseo.
  pose proof (securityAnalysis_profile normalizedUrl (resp_headers response)) as Hsec.
  pose proof (performanceAnalysis_profile (load (resp_data response)) (resp_data response))
    as Hperf.
  pose proof (performanceAnalysis_no_issue (load (resp_data response)) (resp_data response))
    as Hnone.
  cbv zeta in Hseo, Hsec, Hperf. rewrite !lists_empty_iff, Hnone.
  destruct Hseo as (Hseo & _), Hsec as (Hsec & Hsi & Hsr & _), Hperf as (Hperf & _).
  split; [|split; [|split]].
  - split; [intros [= Hv]; lia|intros [Hi Hr]; f_equal; lia].
  - split; [intros [= Hv]; lia|intros [Hi Hr]; f_equal; lia].
  - split; [intros [= Hv]; split; [reflexivity|lia]|intros [_ Hr]; f_equal; lia].
  - f_equal. lia.
Qed.

(** X6. A report built after a response was obtained has at most 8 issues
    and at most 13 recommendations, the positive feedback included. *)
Theorem findings_bounded (load : string -> string -> Cheerio.Selection)
    (normalizedUrl : string) (response : Snapshot) (now : string) :
  let r := analyze load normalizedUrl response now in
  (List.length (issues r) <= 8)%nat /\ (List.length (recommendations r) <= 13)%nat.
Proof.
  cbv zeta. rewrite analyze_unfold. cbn [issues recommendations].
  rewrite runChecks_pushed. cbn [cat l_issues l_recommendations].
  pose proof (seoAnalysis_profile (load (resp_data response))) as Hseo.
  pose proof (securityAnalysis_profile normalizedUrl (resp_headers response)) as Hsec.
  pose proof (performanceAnalysis_profile (load (resp_data response)) (resp_data response))
    as Hperf.
  pose proof (performanceAnalysis_no_issue (load (resp_data response)) (resp_data response))
    as Hnone.
  pose proof (checkStatusCode_profile (resp_status response)) as (Hc1 & Hc2 & _).
  pose proof (checkResponseTime_profile (resp_elapsed response)) as (Ht1 & Ht2 & _).
  cbv zeta in Hseo, Hsec, Hperf. rewrite Hnone, Hc1.
  unfold positiveFeedback. rewrite !length_app. cbn [List.length app].
  destruct (Nat.eqb_spec
              (List.length (l_issues (pushed (checkStatusCode (resp_status response))))
               + (List.length (l_issues (pushed (checkResponseTime (resp_elapsed response))))
                  + (List.length (l_issues (pushed (seoAnalysis (load (resp_data response)))))
                     + (List.length
                          (l_issues (pushed (securityAnalysis normalizedUrl
                                               (resp_headers response))))
                        + 0)))) 0) as [Hzero|Hpos];
    cbn [List.length]; lia.
Qed.

(** X7. A report with the status success is clean: it has no issue, the
    status code is below 300, the response took at most 3000 ms, the URL
    begins with https://, there are at most 4 recommendations of which the
    last is the positive feedback, and the SEO score is at least 85 and the
    security and performance scores at least 70. *)
Theorem success_means_clean (load : string -> string -> Cheerio.Selection)
    (normalizedUrl : string) (response : Snapshot) (now : string) :
  let r := analyze load normalizedUrl response now in
  status r = success ->
  issues r = [] /\
  resp_status response < 300 /\
  resp_elapsed response <= 3000 /\
  JS.startsWith "https://" normalizedUrl = true /\
  (List.length (recommendations r) <= 4)%nat /\
  last (recommendations r) = Some "Great job! No critical issues detected" /\
  exists s c p,
    seoScore r = Some s /\ securityScore r = Some c /\ performanceScore r = Some p /\
    85 <= s /\ 70 <= c /\ 70 <= p.
Proof.
  cbv zeta. rewrite analyze_unfold, runChecks_value.
  cbn [status issues recommendations seoScore securityScore performanceScore
         seo security performance].
  intros Hok. apply determineStatus_success in Hok as [_ Hquiet].
  assert (Hi : List.length
                 (l_issues (pushed (runChecks load normalizedUrl response))) = 0%nat) by lia.
  assert (Hr : (List.length
                  (l_recommendations (pushed (runChecks load normalizedUrl response)))
                <= 3)%nat) by lia.
  clear Hquiet. unfold positiveFeedback. rewrite Hi. cbn [Nat.eqb].
  rewrite length_app, last_snoc. cbn [List.length].
  rewrite (nil_length_inv _ Hi).
  pose proof Hr as Hr'.
  rewrite runChecks_pushed in Hi, Hr'. cbn [cat l_issues l_recommendations] in Hi, Hr'.
  rewrite !length_app in Hi, Hr'.
  pose proof (seoAnalysis_profile (load (resp_data response))) as Hseo.
  pose proof (securityAnalysis_profile normalizedUrl (resp_headers response)) as Hsec.
  pose proof (performanceAnalysis_profile (load (resp_data response)) (resp_data response))
    as Hperf.
  pose proof (checkStatusCode_profile (resp_status response)) as (_ & _ & Hcode).
  pose proof (checkResponseTime_profile (resp_elapsed response)) as (_ & _ & Htime).
  cbv zeta in Hseo, Hsec, Hperf.
  destruct Hseo as (Hseo & _), Hsec as (Hsec & _ & _ & Hhttps), Hperf as (Hperf & _).
  split; [reflexivity|].
  split; [apply Hcode; lia|].
  split; [apply Htime; lia|].
  split; [apply Hhttps; lia|].
  split; [lia|]. split; [reflexivity|].
  do 3 eexists. repeat (split; [reflexivity|]). lia.
Qed.

Lemma success_means_clean_witness :
  issues (analyze Fixture.tidyPage "https://example.com" Fixture.indentedResponse
            "2024-05-01T10:00:00.000Z") = [].
Proof.
  apply (success_means_clean Fixture.tidyPage "https://example.com"
           Fixture.indentedResponse "2024-05-01T10:00:00.000Z").
  vm_compute. reflexivity.
Defined.

(** ** The scheme of the normalised URL *)

Lemma startsWith_spec (p s : string) :
  JS.startsWith p s = true <-> exists t, s = p +:+ t.
Proof.
  revert s. induction p as [|a p IH]; intros s.
  - split; [intros _; exists s; reflexivity|reflexivity].
  - destruct s as [|b s]; simpl.
    + split; [discriminate|intros [t Ht]; discriminate Ht].
    + destruct (Ascii.eqb_spec a b) as [->|Hne].
      * rewrite IH. split; intros [t Ht]; exists t; [rewrite Ht; reflexivity|].
        injection Ht as Ht. exact Ht.
      * split; [discriminate|intros [t Ht]]. injection Ht as Hab _.
        exfalso. apply Hne. symmetry. exact Hab.
Qed.

(** X8. A URL given without the http prefix is fetched over https://, so the
    security block raises no issue for it and its security score is at least
    60; a URL given with http:// keeps its scheme, gets the issue "Website
    is not using HTTPS" and a security score of at most 70. *)
Theorem scheme_and_security (raw : string) (headers : gmap string string) :
  let block := securityAnalysis (normalizeUrl raw) headers in
  (JS.startsWith "http" raw = false ->
   JS.startsWith "https://" (normalizeUrl raw) = true /\
   l_issues (pushed block) = [] /\ 60 <= value block) /\
  (JS.startsWith "http://" raw = true ->
   normalizeUrl raw = raw /\
   l_issues (pushed block) = ["Website is not using HTTPS"] /\ value block <= 70).
Proof.
  cbv zeta.
  pose proof (securityAnalysis_profile (normalizeUrl raw) headers) as Hsec.
  cbv zeta in Hsec. destruct Hsec as (Hv & Hi & Hr & Hhttps).
  split.
  - intros Hraw.
    assert (Hs : JS.startsWith "https://" (normalizeUrl raw) = true).
    { unfold normalizeUrl. rewrite Hraw. apply startsWith_spec. exists raw. reflexivity. }
    split; [exact Hs|]. apply Hhttps in Hs.
    split; [apply nil_length_inv; lia|lia].
  - intros Hraw.
    assert (Hn : normalizeUrl raw = raw).
    { unfold normalizeUrl.
      rewrite (startsWith_app_l "http" "://" raw Hraw). reflexivity. }
    split; [exact Hn|].
    assert (Hs : JS.startsWith "https://" (normalizeUrl raw) = false).
    { rewrite Hn. apply startsWith_spec in Hraw as [t ->]. reflexivity. }
    clear Hv Hi Hr Hhttps.
    unfold value, pushed. rewrite securityAnalysis_run. cbn [fst snd].
    destruct (checkHttps_profile (normalizeUrl raw)) as [(Hs' & _)|(_ & Hv & Hp)];
      [congruence|].
    rewrite Hv, Hp. cbn [cat l_issues app]. split; [reflexivity|lia].
Qed.

Lemma scheme_and_security_witness :
  l_issues (pushed (securityAnalysis (normalizeUrl "http://example.com") Fixture.allHeaders))
  = ["Website is not using HTTPS"].
Proof.
  apply (proj2 (scheme_and_security "http://example.com" Fixture.allHeaders)).
  reflexivity.
Defined.

(** ** Adding a security header *)

Lemma absent_insert_same (h : gmap string string) key name v :
  JS.truthy_string v = true -> absent (<[key:=v]> h) (key, name) = false.
Proof.
  intros Hv. unfold absent. cbn [fst]. rewrite lookup_insert_eq. cbn [JS.truthy].
  rewrite Hv. reflexivity.
Qed.

Lemma absent_insert_other (h : gmap string string) key v e :
  e.1 <> key -> absent (<[key:=v]> h) e = absent h e.
Proof.
  intros Hne. unfold absent. rewrite lookup_insert_ne by congruence. reflexivity.
Qed.

(** X9. Sending one of the four headers with a non-empty value removes its
    recommendation, leaves the other three headers as they were, and raises
    the score of the header check by 10 when the header was missing before
    and by nothing otherwise. *)
Theorem header_added (headers : gmap string string) (entry : string * string)
    (v : string) (securityScore : Z) :
  In entry securityHeaders ->
  JS.truthy_string v = true ->
  let headers' := <[entry.1 := v]> headers in
  absent headers' entry = false /\
  (forall e, In e securityHeaders -> e <> entry -> absent headers' e = absent headers e) /\
  value (checkSecurityHeaders headers' securityScore) =
    value (checkSecurityHeaders headers securityScore)
    + (if absent headers entry then 10 else 0).
Proof.
  intros Hin Hv. cbv zeta. split; [|split].
  - destruct entry as [key name]. apply absent_insert_same, Hv.
  - intros e He Hne. apply absent_insert_other.
    unfold securityHeaders in Hin, He. cbn [In] in Hin, He.
    destruct Hin as [<-|[<-|[<-|[<-|[]]]]], He as [<-|[<-|[<-|[<-|[]]]]];
      cbn [fst]; first [congruence | discriminate].
  - unfold value, checkSecurityHeaders.
    rewrite !forOf_checkSecurityHeader by apply securityHeaders_lowercase.
    cbn [fst]. unfold securityHeaders in Hin |- *. cbn [In] in Hin. cbn [List.filter].
    destruct Hin as [<-|[<-|[<-|[<-|[]]]]]; cbn [fst];
      rewrite (absent_insert_same _ _ _ _ Hv);
      rewrite !absent_insert_other by (cbn [fst]; discriminate);
      repeat match goal with
             | |- context [absent headers ?e] => destruct (absent headers e)
             end;
      cbn [List.length]; lia.
Qed.

Lemma header_added_witness :
  value (checkSecurityHeaders
           (<["x-frame-options" := "DENY"]>
              (headersObject Fixture.emptyFrameOptionsLines)) 100)
  = value (checkSecurityHeaders (headersObject Fixture.emptyFrameOptionsLines) 100) + 10.
Proof.
  apply (proj2 (proj2 (header_added (headersObject Fixture.emptyFrameOptionsLines)
                         ("x-frame-options", "X-Frame-Options") "DENY" 100
                         (or_intror (or_introl eq_refl)) eq_refl))).
Defined.

(** ** The whitespace test *)

Lemma append_assoc (a b c : string) : (a +:+ b) +:+ c = a +:+ (b +:+ c).
Proof. induction a as [|x a IH]; [reflexivity|exact (f_equal (String x) IH)]. Qed.

Lemma includes_spec (p s : string) :
  JS.includes p s = true <-> exists a b, s = a +:+ p +:+ b.
Proof.
  induction s as [|c s IH]; cbn [JS.includes].
  - rewrite orb_false_r, startsWith_spec. split.
    + intros [t Ht]. exists EmptyString, t. exact Ht.
    + intros [[|a0 a] [b Hb]]; [exists b; exact Hb|discriminate Hb].
  - rewrite orb_true_iff, IH, startsWith_spec. split.
    + intros [[t Ht]|(a & b & Hab)].
      * exists EmptyString, t. exact Ht.
      * exists (String c a), b. rewrite Hab. reflexivity.
    + intros [[|a0 a] [b Hb]].
      * left. exists b. exact Hb.
      * right. injection Hb as _ Hb. exists a, b. exact Hb.
Qed.

(** X10. The minification check takes 5 points and recommends minifying
    exactly when the body contains four spaces in a row or three line feeds
    in a row somewhere; otherwise it changes nothing.  In particular an empty
    body is never flagged, and a body stays flagged when text is added
    before or after it. *)
Theorem minification_flagged (htmlContent : string) (performanceScore : Z) (st : Lists) :
  let flagged :=
    exists a b,
      htmlContent = a +:+ "    " +:+ b \/ htmlContent = a +:+ (nl +:+ nl +:+ nl) +:+ b in
  (flagged ->
   checkMinification htmlContent performanceScore st =
   (performanceScore - 5,
    {| l_issues := l_issues st;
       l_recommendations :=
         (l_recommendations st
            ++ ["Consider minifying HTML for better performance"])%list |})) /\
  (~ flagged -> checkMinification htmlContent performanceScore st = (performanceScore, st)) /\
  checkMinification EmptyString performanceScore st = (performanceScore, st) /\
  (flagged ->
   forall before after,
     (checkMinification (before +:+ htmlContent +:+ after) performanceScore st).1
     = performanceScore - 5).
Proof.
  cbv zeta.
  assert (Hflag : forall html,
             JS.includes "    " html || JS.includes (nl +:+ nl +:+ nl) html = true <->
             exists a b, html = a +:+ "    " +:+ b \/ html = a +:+ (nl +:+ nl +:+ nl) +:+ b).
  { intros html. rewrite orb_true_iff, !includes_spec. split.
    - intros [(a & b & H)|(a & b & H)]; exists a, b; [left|right]; exact H.
    - intros (a & b & [H|H]); [left|right]; exists a, b; exact H. }
  split; [|split; [|split]].
  - intros H. apply Hflag in H. unfold checkMinification. rewrite H. reflexivity.
  - intros H. unfold checkMinification.
    destruct (JS.includes "    " htmlContent
              || JS.includes (nl +:+ nl +:+ nl) htmlContent) eqn:E; [|reflexivity].
    exfalso. apply H, Hflag, E.
  - reflexivity.
  - intros (a & b & H) before after.
    assert (H' : JS.includes "    " (before +:+ htmlContent +:+ after)
                 || JS.includes (nl +:+ nl +:+ nl) (before +:+ htmlContent +:+ after) = true).
    { apply Hflag. exists (before +:+ a), (b +:+ after).
      destruct H as [-> | ->]; [left|right]; rewrite !append_assoc; reflexivity. }
    unfold checkMinification. rewrite H'. reflexivity.
Qed.

Lemma minification_flagged_witness :
  checkMinification "<ul>    <li>one</li></ul>" 100 no_lists =
  (95, {| l_issues := [];
          l_recommendations := ["Consider minifying HTML for better performance"] |}).
Proof.
  apply (proj1 (minification_flagged "<ul>    <li>one</li></ul>" 100 no_lists)).
  exists "<ul>", "<li>one</li></ul>". left. reflexivity.
Defined.

(** * Properties of the page *)

(** ** Submitting a URL *)

(** X11. [checkWebsite] never changes the URL typed in.  With an empty URL it
    sends no request and only sets the error "Please enter a URL", leaving
    the previous result and the loading flag as they were.  With a URL it
    first clears the previous result and error and sets the loading flag;
    when the request settles the loading flag is off and either the result
    is the body received and there is no error, or there is no result and a
    non-empty error, which is the server's message or "Failed to check
    website". *)
Theorem checkWebsite_outcome (axios_post : string -> Page.PostOutcome) (s : Page.State) :
  let s' := Page.checkWebsite axios_post s in
  Page.url s' = Page.url s /\
  (Page.url s = EmptyString ->
   Page.checkWebsiteStart s =
   ({| Page.url := EmptyString; Page.loading := Page.loading s;
       Page.result := Page.result s; Page.error := "Please enter a URL" |}, false) /\
   s' = (Page.checkWebsiteStart s).1) /\
  (Page.url s <> EmptyString ->
   Page.checkWebsiteStart s =
   ({| Page.url := Page.url s; Page.loading := true;
       Page.result := None; Page.error := EmptyString |}, true) /\
   Page.loading s' = false /\
   match axios_post (Page.url s) with
   | Page.PostResolved data =>
       Page.result s' = Some data /\ Page.error s' = EmptyString
   | Page.PostRejected serverError =>
       Page.result s' = None /\ Page.error s' <> EmptyString /\
       (serverError = Some (Page.error s') \/ Page.error s' = "Failed to check website")
   end).
Proof.
  cbv zeta. unfold Page.checkWebsite, Page.checkWebsiteStart.
  destruct (Page.url s) as [|c u] eqn:Hurl; cbn [JS.truthy_string negb].
  - split; [reflexivity|]. split; [intros _|intros H; exfalso; apply H; reflexivity].
    split; reflexivity.
  - cbn [Page.url]. split; [|split; [discriminate|intros _]].
    + destruct (axios_post (String c u)); reflexivity.
    + split; [reflexivity|].
      destruct (axios_post (String c u)) as [data|[[|e0 e]|]];
        cbn; repeat split; try discriminate; auto.
Qed.

Lemma checkWebsite_outcome_witness :
  Page.checkWebsite (fun _ => Page.PostRejected None) Page.initial =
  {| Page.url := EmptyString; Page.loading := false; Page.result := None;
     Page.error := "Please enter a URL" |}.
Proof.
  apply (proj2 (proj1 (proj2 (checkWebsite_outcome (fun _ => Page.PostRejected None)
                               Page.initial)) eq_refl)).
Defined.

(** X12. When the request of the page is answered by the handler, a non-empty
    URL is never answered "URL is required", and the page ends with the
    loading flag off.  If the handler returns a report, the page shows that
    report, whose [url] is the normalised URL, and no error; if the handler
    answers HTTP 500, the page shows no result and the handler's message as
    the error.  When the fetch throws or delivers text, the page always ends
    with a report and no error. *)
Theorem page_through_endpoint (load : string -> string -> Cheerio.Selection)
    (loadValue : JsonValue -> string + (string -> Cheerio.Selection))
    (axios_get : string -> AxiosOutcome) (typeError : string -> string)
    (now : string) (s : Page.State) :
  let answer :=
    POST load loadValue axios_get typeError (Readable (Some (JString (Page.url s)))) now in
  let s' := Page.checkWebsite (viaEndpoint load loadValue axios_get typeError now) s in
  Page.url s <> EmptyString ->
  Page.loading s' = false /\
  (forall message, answer <> ErrorBody message 400) /\
  (forall r,
      answer = Report r ->
      Page.result s' = Some r /\ Page.error s' = EmptyString /\
      url r = normalizeUrl (Page.url s)) /\
  (forall message code,
      answer = ErrorBody message code ->
      code = 500 /\ message <> EmptyString /\
      Page.result s' = None /\ Page.error s' = message) /\
  ((exists message, axios_get (normalizeUrl (Page.url s)) = Thrown message) \/
   (exists response htmlContent,
       axios_get (normalizeUrl (Page.url s)) = Resolved response /\
       Axios.data response = JString htmlContent) ->
   exists r, Page.result s' = Some r /\ Page.error s' = EmptyString).
Proof.
  cbv zeta. unfold Page.checkWebsite, Page.checkWebsiteStart.
  destruct (Page.url s) as [|c u] eqn:Hurl; [intros H; exfalso; apply H; reflexivity|].
  intros _. cbn [JS.truthy_string negb Page.url]. unfold viaEndpoint.
  assert (Htruthy : JS.truthy (Some (String c u)) = true) by reflexivity.
  destruct (axios_get (normalizeUrl (String c u))) as [response|thrown] eqn:Hget.
  - rewrite (POST_resolved load loadValue axios_get typeError _ now response Htruthy Hget).
    destruct (handle_answers load loadValue typeError (normalizeUrl (String c u)) response now)
      as [(load' & html & Hrep)|(m & Herr & Hne & Hdata)].
    + rewrite Hrep. cbn. split; [reflexivity|]. split; [discriminate|].
      split; [|split].
      * intros r [= <-]. rewrite analyze_unfold. repeat split.
      * intros message code Hm. discriminate Hm.
      * intros _. eexists. split; reflexivity.
    + rewrite Herr. destruct m as [|m0 m]; [exfalso; apply Hne; reflexivity|].
      cbn. split; [reflexivity|]. split; [discriminate|]. split; [|split].
      * intros r Hr. discriminate Hr.
      * intros message code [= <- <-]. repeat split. discriminate.
      * intros [(message & Hm)|(response' & html & [= <-] & Hhtml)];
          [discriminate Hm|exfalso; apply (Hdata html), Hhtml].
  - rewrite (POST_thrown load loadValue axios_get typeError _ now thrown Htruthy Hget).
    cbn. split; [reflexivity|]. split; [discriminate|]. split; [|split].
    + intros r [= <-]. repeat split.
    + intros message code Hm. discriminate Hm.
    + intros _. eexists. split; reflexivity.
Qed.

Lemma page_through_endpoint_witness :
  Page.loading
    (Page.checkWebsite
       (viaEndpoint Fixture.homePage Fixture.lenient Fixture.reachable Fixture.v8
          "2024-05-01T10:00:00.000Z")
       (Page.setUrl "example.com" Page.initial)) = false.
Proof.
  apply (page_through_endpoint Fixture.homePage Fixture.lenient Fixture.reachable Fixture.v8
           "2024-05-01T10:00:00.000Z" (Page.setUrl "example.com" Page.initial)).
  discriminate.
Defined.

(** ** Colours and score cells *)

(** X13. Every status the handler can put in a report has a colour of its own
    on the page: green for success, yellow for warning, red for error.  Any
    other string gets the gray of the [default] branch, which is therefore
    never used for a report. *)
Theorem status_colours (a b : Status) :
  Page.getStatusColor (statusString a) =
    match a with
    | success => "text-green-600"
    | warning => "text-yellow-600"
    | error => "text-red-600"
    end /\
  (Page.getStatusColor (statusString a) = Page.getStatusColor (statusString b) -> a = b) /\
  Page.getStatusColor (statusString a) <> "text-gray-600" /\
  (forall other,
      (forall known, other <> statusString known) ->
      Page.getStatusColor other = "text-gray-600").
Proof.
  split; [destruct a; reflexivity|]. split; [|split].
  - destruct a, b; cbn; intros H; first [reflexivity | discriminate H].
  - destruct a; cbn; discriminate.
  - intros other Hother. unfold Page.getStatusColor.
    destruct (String.eqb_spec other "success") as [->|_];
      [exfalso; apply (Hother success); reflexivity|].
    destruct (String.eqb_spec other "warning") as [->|_];
      [exfalso; apply (Hother warning); reflexivity|].
    destruct (String.eqb_spec other "error") as [->|_];
      [exfalso; apply (Hother error); reflexivity|].
    reflexivity.
Qed.

Lemma status_colours_witness : Page.getStatusColor "SUCCESS" = "text-gray-600".
Proof.
  apply (proj2 (proj2 (proj2 (status_colours success success)))).
  intros [| |]; discriminate.
Defined.

(** X14. For a report built after a response with a non-zero status code the
    page shows four cells, in the order Status Code, Response Time, SEO
    Score, Performance, so the security score is not shown; the performance
    cell is never red, and the SEO cell is green exactly when the SEO block
    took at most 20 points.  For the report of a failed fetch, and for a
    status code of 0, the page shows no cell. *)
Theorem score_cells (load : string -> string -> Cheerio.Selection)
    (normalizedUrl : string) (response : Snapshot) (now : string) :
  let r := analyze load normalizedUrl response now in
  let dollar := load (resp_data response) in
  (resp_status response <> 0 ->
   List.map Page.caption (Page.scoreCards r) =
     ["Status Code"; "Response Time"; "SEO Score"; "Performance"] /\
   (forall cell,
       In cell (Page.scoreCards r) ->
       Page.caption cell = "Performance" -> Page.colour cell <> "text-red-600") /\
   (forall cell,
       In cell (Page.scoreCards r) ->
       Page.caption cell = "SEO Score" ->
       (Page.colour cell = "text-green-600" <-> 80 <= value (seoAnalysis dollar)))) /\
  (resp_status response = 0 -> Page.scoreCards r = []) /\
  (forall message, Page.scoreCards (fetchFailed normalizedUrl message now) = []).
Proof.
  cbv zeta. rewrite analyze_unfold, runChecks_value.
  unfold Page.scoreCards.
  cbn [statusCode responseTime seoScore performanceScore seo performance
         Page.truthy_number Page.scoreCard Page.showOptional].
  pose proof (seoAnalysis_range (load (resp_data response))) as Hseo.
  pose proof (performanceAnalysis_range (load (resp_data response)) (resp_data response))
    as Hperf.
  rewrite !Z.max_r by lia.
  split; [|split].
  - intros Hcode. destruct (Z.eqb_spec (resp_status response) 0) as [H0|_]; [contradiction|].
    cbn [negb app List.map Page.caption In].
    split; [reflexivity|]. split.
    + intros cell [<-|[<-|[<-|[<-|[]]]]]; cbn [Page.caption Page.colour];
        try discriminate.
      intros _. unfold Page.getScoreColor.
      destruct (Z.leb_spec 80 (value (performanceAnalysis (load (resp_data response))
                                        (resp_data response)))); [discriminate|].
      destruct (Z.leb_spec 60 (value (performanceAnalysis (load (resp_data response))
                                        (resp_data response)))); [discriminate|lia].
    + intros cell [<-|[<-|[<-|[<-|[]]]]]; cbn [Page.caption Page.colour];
        try discriminate.
      intros _. unfold Page.getScoreColor.
      destruct (Z.leb_spec 80 (value (seoAnalysis (load (resp_data response)))));
        [split; [intros _; assumption|reflexivity]|].
      destruct (Z.leb_spec 60 (value (seoAnalysis (load (resp_data response)))));
        (split; [discriminate|lia]).
  - intros ->. reflexivity.
  - reflexivity.
Qed.

Lemma score_cells_witness :
  List.map Page.caption
    (Page.scoreCards (analyze Fixture.homePage "https://example.com" Fixture.okResponse
                        "2024-05-01T10:00:00.000Z")) =
  ["Status Code"; "Response Time"; "SEO Score"; "Performance"].
Proof.
  apply (proj1 (score_cells Fixture.homePage "https://example.com" Fixture.okResponse
                  "2024-05-01T10:00:00.000Z")).
  vm_compute. discriminate.
Defined.

(** * Further properties of the URL and of the SEO block *)

(** X15. Normalising is idempotent: a normalised URL begins with http and
    normalising it again changes nothing, so a report's [url] can be fed back
    to the handler and is fetched as it is. *)
Theorem normalizeUrl_idempotent (raw : string) :
  JS.startsWith "http" (normalizeUrl raw) = true /\
  normalizeUrl (normalizeUrl raw) = normalizeUrl raw.
Proof.
  assert (H : JS.startsWith "http" (normalizeUrl raw) = true).
  { unfold normalizeUrl. destruct (JS.startsWith "http" raw) eqn:E; [exact E|].
    apply (startsWith_app_l "http" "s://"), startsWith_spec.
    exists raw. reflexivity. }
  split; [exact H|]. unfold normalizeUrl at 1. rewrite H. reflexivity.
Qed.



(** X17. When the status code is below 500, a report has the status error
    only with at least 6 issues, of which at least 3 come from the SEO
    block, since the other checks raise at most 3 issues between them; its
    SEO score is then at most 78. *)
Theorem error_needs_seo_issues (load : string -> string -> Cheerio.Selection)
    (normalizedUrl : string) (response : Snapshot) (now : string) :
  let r := analyze load normalizedUrl response now in
  resp_status response < 500 ->
  status r = error ->
  (6 <= List.length (issues r))%nat /\
  (3 <= List.length (l_issues (pushed (seoAnalysis (load (resp_data response))))))%nat /\
  exists s, seoScore r = Some s /\ s <= 78.
Proof.
  cbv zeta. rewrite analyze_unfold, runChecks_value.
  cbn [status issues seoScore seo]. intros Hcode Herr.
  apply determineStatus_error in Herr as [Hmany|Hbad]; [|lia].
  split; [lia|].
  rewrite runChecks_pushed in Hmany. cbn [cat l_issues] in Hmany.
  rewrite !length_app in Hmany.
  pose proof (seoAnalysis_profile (load (resp_data response))) as Hseo.
  pose proof (securityAnalysis_profile normalizedUrl (resp_headers response)) as Hsec.
  pose proof (performanceAnalysis_no_issue (load (resp_data response)) (resp_data response))
    as Hnone.
  pose proof (checkStatusCode_profile (resp_status response)) as (_ & Hc & _).
  pose proof (checkResponseTime_profile (resp_elapsed response)) as (Ht & _ & _).
  cbv zeta in Hseo, Hsec. rewrite Hnone in Hmany. cbn [List.length] in Hmany.
  destruct Hseo as (Hrange & _ & _ & _ & Hthree).
  assert (Hseo3 : (3 <= List.length
                         (l_issues (pushed (seoAnalysis (load (resp_data response))))))%nat)
    by lia.
  split; [exact Hseo3|]. eexists. split; [reflexivity|].
  specialize (Hthree ltac:(lia)). lia.
Qed.

Lemma error_needs_seo_issues_witness :
  (6 <= List.length
          (issues (analyze (fun _ => blankPage) "http://example.com"
                     {| resp_status := 404; resp_data := EmptyString;
                        resp_headers := ∅; resp_elapsed := 5000 |}
                     "2024-05-01T10:00:00.000Z")))%nat.
Proof.
  apply (error_needs_seo_issues (fun _ => blankPage) "http://example.com"
           {| resp_status := 404; resp_data := EmptyString;
              resp_headers := ∅; resp_elapsed := 5000 |}
           "2024-05-01T10:00:00.000Z").
  - cbn. lia.
  - vm_compute. reflexivity.
Defined.
